(** * Codebase intelligence service: a shallow embedding of
      [codebase_service.py], [codebase_api.py] and [codebase_tools.py].

    The scan is a sequence of filesystem walks and substring checks, so the
    embedding has three layers:

    - the environment the Python code talks to (a directory tree, the
      outcome of [Path.resolve], the persistence collaborator, the HTTP
      transport of the tool layer);
    - the service methods, one definition per method, with the same names;
    - the HTTP routes and the tool functions that wrap the service.

    File text is a sequence of Unicode code points (what [read_text]
    returns after decoding); file and directory names are strings. *)

From Stdlib Require Import String Ascii NArith List Bool Arith Lia.
From stdpp Require Import base option gmap strings list fin_maps pretty.
Import ListNotations.

Local Open Scope string_scope.
Local Open Scope list_scope.

(** ** Text: decoded file content *)

Definition text := list N.

Definition text_of (s : string) : text :=
  map N_of_ascii (list_ascii_of_string s).

(** [needle in hay] on Python strings. *)
Fixpoint text_startswith (needle hay : text) : bool :=
  match needle, hay with
  | [], _ => true
  | _ :: _, [] => false
  | n :: needle', h :: hay' => N.eqb n h && text_startswith needle' hay'
  end.

Fixpoint text_in (needle hay : text) : bool :=
  text_startswith needle hay ||
  match hay with
  | [] => false
  | _ :: hay' => text_in needle hay'
  end.

(** The line boundaries of [str.splitlines]: LF, VT, FF, CR, FS, GS, RS,
    NEL, LINE SEPARATOR and PARAGRAPH SEPARATOR; CR LF is one boundary. *)
Definition is_linebreak (c : N) : bool :=
  existsb (N.eqb c) [10; 11; 12; 13; 28; 29; 30; 133; 8232; 8233]%N.

Fixpoint splitlines_from (cur : text) (t : text) : list text :=
  match t with
  | [] => match cur with [] => [] | _ :: _ => [rev cur] end
  | c :: t' =>
      if is_linebreak c then
        match t' with
        | c' :: t'' =>
            if N.eqb c 13 && N.eqb c' 10
            then rev cur :: splitlines_from [] t''
            else rev cur :: splitlines_from [] t'
        | [] => rev cur :: splitlines_from [] t'
        end
      else splitlines_from (c :: cur) t'
  end.

Definition splitlines (t : text) : list text := splitlines_from [] t.

(** ** Strings: names and paths *)

Definition str_startswith (s pre : string) : bool := String.prefix pre s.

Definition str_endswith (s suf : string) : bool :=
  let n := String.length s in
  let k := String.length suf in
  Nat.leb k n && String.eqb (substring (n - k) k s) suf.

(** [sep.join(parts)]. *)
Fixpoint str_join (sep : string) (l : list string) : string :=
  match l with
  | [] => EmptyString
  | [s] => s
  | s :: l' => s +:+ sep +:+ str_join sep l'
  end.

(** A path is the list of its segments below the filesystem root;
    [Path.parts] of an absolute POSIX path starts with the root ["/"]. *)
Abbreviation Path := (list string).

Definition parts (p : Path) : list string := "/" :: p.

(** [str(p)] for a relative path: the empty relative path prints as ["."]. *)
Definition str_relative (rel : list string) : string :=
  match rel with
  | [] => "."
  | _ :: _ => str_join "/" rel
  end.

(** [p.name]: the last segment, empty for the empty relative path. *)
Definition path_name (rel : list string) : string :=
  List.last rel EmptyString.

(** [p.relative_to(root)]: [root] stripped from the front of [p], and a
    [ValueError] ([None]) when [root] is not a prefix of [p]. *)
Fixpoint relative_to (p root : Path) : option (list string) :=
  match root, p with
  | [], _ => Some p
  | _ :: _, [] => None
  | r :: root', s :: p' => if String.eqb r s then relative_to p' root' else None
  end.

(** ** The filesystem *)

Unset Elimination Schemes.
(** A file carries the outcome of [read_text(encoding="utf-8")]: its decoded
    text, or [None] when the read or the decoding raises.  A directory
    carries whether it can be listed and its entries in listing order. *)
Inductive node : Type :=
| File (content : option text)
| Dir (listable : bool) (entries : list (string * node)).
Set Elimination Schemes.

(** Induction on directory trees: the property holds of every entry of a
    directory. *)

Section node_induction.
Variable P : node -> Prop.
Hypothesis P_file : forall content, P (File content).
Hypothesis P_dir :
  forall listable es, Forall (fun e => P (snd e)) es -> P (Dir listable es).

Fixpoint node_ind (n : node) : P n :=
  match n with
  | File content => P_file content
  | Dir listable es =>
      P_dir listable es
        ((fix each (l : list (string * node)) :
            Forall (fun e => P (snd e)) l :=
            match l with
            | [] => @List.Forall_nil _ _
            | e :: l' =>
                @List.Forall_cons _ _ e l' (node_ind (snd e)) (each l')
            end) es)
  end.
End node_induction.

Definition is_dir (n : node) : bool :=
  match n with Dir _ _ => true | File _ => false end.

Fixpoint find_entry (name : string) (es : list (string * node)) : option node :=
  match es with
  | [] => None
  | (nm, n) :: es' => if String.eqb nm name then Some n else find_entry name es'
  end.

Fixpoint fs_get (n : node) (p : Path) : option node :=
  match p with
  | [] => Some n
  | seg :: p' =>
      match n with
      | File _ => None
      | Dir _ es =>
          match find_entry seg es with
          | Some c => fs_get c p'
          | None => None
          end
      end
  end.

(** [fnmatch] of a name against ["*.py"] (case-sensitive, as on POSIX). *)
Definition matches_py (name : string) : bool := str_endswith name ".py".

(** [d.rglob("*.py")] relative to [d]: for each directory of the walk, in
    pre-order, the entries whose name matches (files and directories alike).
    A directory that cannot be listed contributes nothing: pathlib swallows
    the permission error. *)
Fixpoint rglob_rel (n : node) : list (list string) :=
  match n with
  | File _ => []
  | Dir false _ => []
  | Dir true es =>
      map (fun e => [fst e]) (List.filter (fun e => matches_py (fst e)) es) ++
      flat_map (fun '(nm, c) => map (cons nm) (rglob_rel c)) es
  end.

(** ** The data model of an analysis *)

(** The entries of [entry_points]: the dict with keys [path], [type] and
    [description]. *)
Record EntryPoint := {
  ep_path : string;
  ep_type : string;
  ep_description : string;
}.

(** The values of [directory_structure]: keys [type] and
    [python_file_count]. *)
Record DirInfo := {
  dir_type : string;
  python_file_count : nat;
}.

(** The dict with the three fixed keys built by [_detect_tech_stack]. *)
Record TechStack := {
  frameworks : list string;
  databases : list string;
  tools : list string;
}.

Record Analysis := {
  codebase_path : string;
  project_id : option string;
  analysis_timestamp : string;
  total_files : nat;
  total_lines : nat;
  languages : gmap string nat;
  entry_points : list EntryPoint;
  directory_structure : gmap string DirInfo;
  tech_stack : TechStack;
  architecture_summary : string;
}.

(** A record as the service returns it: a row of the store (with its
    generated [id]) or the in-memory analysis (no [id]). *)
Record Row := {
  row_id : option string;
  row_analysis : Analysis;
}.

(** ** Exceptions and results *)

(** The exceptions that matter to the routes, by class: [ValueError] with
    its subclasses (such as [json.JSONDecodeError]), [KeyError], [OSError],
    and [StoreError] for every other exception a store client raises. *)
Inductive exn :=
| ValueError (msg : string)
| KeyError (key : string)
| OSError (msg : string)
| StoreError (msg : string).

(** [str(e)]. *)
Definition exn_str (e : exn) : string :=
  match e with
  | ValueError msg => msg
  | KeyError key => "'" +:+ key +:+ "'"
  | OSError msg => msg
  | StoreError msg => msg
  end.


Inductive result (A : Type) :=
| Ok (a : A)
| Raise (e : exn).
Arguments Ok {A} a.
Arguments Raise {A} e.

(** ** The environment *)

(** What the operating system answers. *)
Record Env := {
  fs_root : node;                       (* the tree below "/" *)
  resolve : string -> Path;             (* Path(s).resolve() *)
  docker_container : option string;     (* os.getenv("DOCKER_CONTAINER") *)
  now_isoformat : string;               (* datetime.now().isoformat() *)
  str_lower : text -> text;             (* str.lower() *)
  stat_error : Path -> option string;   (* the OSError, other than absence,
                                           that stat raises on a path that
                                           is not in the tree *)
}.

(** The persistence collaborator: what [execute()] answers to each of the
    three queries, a list of rows or the exception it raises. *)
Inductive StoreOutcome :=
| StoreRaises (e : exn)
| StoreData (data : list Row).

Record Store := {
  insert_execute : Analysis -> StoreOutcome;
  select_project_execute : string -> StoreOutcome;
  select_latest_execute : string -> StoreOutcome;
}.

(** The queries a service call sends to the store, in order. *)
Inductive StoreCall :=
| Insert (a : Analysis)
| SelectProject (project : string)
| SelectLatest (path : string).

(** [os.path.exists(p)], which answers False on every error of [stat].
    The manifest tests of [_detect_tech_stack] are read the same way: they
    look one name below a root that [stat] has just answered for. *)
Definition path_exists (env : Env) (p : Path) : bool :=
  match fs_get (fs_root env) p with Some _ => true | None => false end.

(** [p.exists()] on the path the caller gave. [stat] answers; or it fails
    with absence (ENOENT, ENOTDIR, EBADF, ELOOP), which [exists] turns into
    False; or it fails with another [OSError] (a name that is too long, a
    directory that cannot be searched), which [exists] lets through. *)
Definition stat_exists (env : Env) (p : Path) : result bool :=
  match fs_get (fs_root env) p with
  | Some _ => Ok true
  | None =>
      match stat_error env p with
      | Some msg => Raise (OSError msg)
      | None => Ok false
      end
  end.

(** [p.is_dir()], called on a path that [exists] has found. *)
Definition path_is_dir (env : Env) (p : Path) : bool :=
  match fs_get (fs_root env) p with Some n => is_dir n | None => false end.

(** [p.read_text(encoding="utf-8")]; [None] stands for any exception. *)
Definition read_text (env : Env) (p : Path) : option text :=
  match fs_get (fs_root env) p with
  | Some (File content) => content
  | _ => None
  end.

(** [p.rglob("*.py")] as absolute paths. *)
Definition rglob (env : Env) (p : Path) : list Path :=
  match fs_get (fs_root env) p with
  | Some n => map (app p) (rglob_rel n)
  | None => []
  end.

(** [p.iterdir()]: the children with their names, or [None] when listing
    raises. *)
Definition iterdir (env : Env) (p : Path) : option (list (string * node)) :=
  match fs_get (fs_root env) p with
  | Some (Dir true es) => Some es
  | _ => None
  end.

(** ** The service: [CodebaseService] *)

Module Service.

Definition _is_running_in_docker (env : Env) : bool :=
  path_exists env [".dockerenv"] ||
  match docker_container env with Some _ => true | None => false end.

Definition ignore_patterns : list string :=
  [".venv"; "venv"; "env"; "__pycache__"; ".git"; "node_modules";
   ".pytest_cache"; ".mypy_cache"; "dist"; "build"; ".tox"].

(** [any(pattern in py_file.parts for pattern in ignore_patterns)]. *)
Definition ignored (py_file : Path) : bool :=
  existsb (fun pattern => existsb (String.eqb pattern) (parts py_file))
          ignore_patterns.

Definition _find_python_files (env : Env) (path : Path) : list Path :=
  fold_left (fun python_files py_file =>
               if ignored py_file then python_files
               else python_files ++ [py_file])
            (rglob env path) [].

Definition _count_lines (env : Env) (python_files : list Path) : nat :=
  fold_left (fun total_lines py_file =>
               match read_text env py_file with
               | Some content => total_lines + length (splitlines content)
               | None => total_lines
               end)
            python_files 0.

Definition dquote : string := String (ascii_of_nat 34) EmptyString.

Definition main_guard_double : text :=
  text_of ("if __name__ == " +:+ dquote +:+ "__main__" +:+ dquote).
Definition main_guard_single : text := text_of "if __name__ == '__main__'".

Definition _find_entry_points (env : Env) (python_files : list Path)
    (root_path : Path) : list EntryPoint :=
  fold_left (fun entry_points py_file =>
               match read_text env py_file with
               | Some content =>
                   if text_in main_guard_double content
                      || text_in main_guard_single content
                   then
                     match relative_to py_file root_path with
                     | Some relative_path =>
                         entry_points ++
                         [{| ep_path := str_relative relative_path;
                             ep_type := "cli_entry";
                             ep_description :=
                               "Entry point in " +:+ path_name relative_path |}]
                     | None => entry_points
                     end
                   else entry_points
               | None => entry_points
               end)
            python_files [].

Definition _analyze_structure (env : Env) (path : Path) : gmap string DirInfo :=
  match iterdir env path with
  | Some items =>
      fold_left (fun structure item =>
                   if is_dir (snd item) && negb (str_startswith (fst item) ".")
                   then <[fst item :=
                            {| dir_type := "directory";
                               python_file_count :=
                                 length (rglob_rel (snd item)) |}]> structure
                   else structure)
                items ∅
  | None => ∅
  end.

(** [l.append(tag)] under [if cond]. *)
Definition append_if (cond : bool) (tag : string) (l : list string) :
    list string :=
  if cond then l ++ [tag] else l.

Definition _detect_tech_stack (env : Env) (path : Path) : TechStack :=
  let tech_stack := {| frameworks := []; databases := []; tools := [] |} in
  (* Check requirements.txt *)
  let req_file := path ++ ["requirements.txt"] in
  let tech_stack :=
    if path_exists env req_file then
      match read_text env req_file with
      | Some raw =>
          let content := str_lower env raw in
          let has kw := text_in (text_of kw) content in
          {| frameworks :=
               append_if (has "django") "Django"
                 (append_if (has "flask") "Flask"
                    (append_if (has "fastapi") "FastAPI"
                       (frameworks tech_stack)));
             databases :=
               append_if (has "sqlite") "SQLite"
                 (append_if (has "chromadb") "ChromaDB"
                    (append_if (has "postgresql" || has "psycopg") "PostgreSQL"
                       (databases tech_stack)));
             tools := append_if (has "pytest") "pytest" (tools tech_stack) |}
      | None => tech_stack
      end
    else tech_stack in
  (* Check pyproject.toml *)
  let pyproject := path ++ ["pyproject.toml"] in
  let tech_stack :=
    if path_exists env pyproject then
      match read_text env pyproject with
      | Some raw =>
          let content := str_lower env raw in
          let has kw := text_in (text_of kw) content in
          {| frameworks := frameworks tech_stack;
             databases := databases tech_stack;
             tools :=
               append_if (has "uv") "uv"
                 (append_if (has "poetry") "Poetry" (tools tech_stack)) |}
      | None => tech_stack
      end
    else tech_stack in
  (* Check for Docker *)
  {| frameworks := frameworks tech_stack;
     databases := databases tech_stack;
     tools :=
       append_if (path_exists env (path ++ ["Dockerfile"])
                  || path_exists env (path ++ ["docker-compose.yml"]))
                 "Docker" (tools tech_stack) |}.

(** [f"{n:,}"]: decimal digits with a comma between groups of three. *)
Fixpoint group_thousands (k : nat) (rev_digits : list ascii) : list ascii :=
  match rev_digits with
  | [] => []
  | d :: rest =>
      match rest with
      | [] => [d]
      | _ :: _ =>
          if Nat.eqb k 2 then d :: ","%char :: group_thousands 0 rest
          else d :: group_thousands (S k) rest
      end
  end.

Definition format_thousands (n : nat) : string :=
  string_of_list_ascii
    (rev (group_thousands 0 (rev (list_ascii_of_string (pretty n))))).

Definition _generate_summary (analysis : Analysis) : string :=
  let summary_parts :=
    ["Python project with " +:+ pretty (total_files analysis) +:+ " files ("
     +:+ format_thousands (total_lines analysis) +:+ " lines of code)"] in
  let tech := tech_stack analysis in
  let summary_parts :=
    match frameworks tech with
    | [] => summary_parts
    | _ :: _ =>
        summary_parts ++
        ["Uses " +:+ str_join ", " (frameworks tech) +:+ " framework"]
    end in
  let summary_parts :=
    match databases tech with
    | [] => summary_parts
    | _ :: _ =>
        summary_parts ++ ["Databases: " +:+ str_join ", " (databases tech)]
    end in
  let summary_parts :=
    match entry_points analysis with
    | [] => summary_parts
    | _ :: _ =>
        summary_parts ++
        ["Found " +:+ pretty (length (entry_points analysis))
         +:+ " entry point(s)"]
    end in
  let summary_parts :=
    if Nat.eqb (size (directory_structure analysis)) 0 then summary_parts
    else
      summary_parts ++
      [pretty (size (directory_structure analysis))
       +:+ " top-level directories"] in
  str_join ". " summary_parts +:+ ".".

(** [s.replace(old, new)] for a non-empty [old]: [skip] counts the
    characters of a match that are still to be dropped. *)
Fixpoint str_replace_from (old new : string) (skip : nat) (s : string) :
    string :=
  match s with
  | EmptyString => EmptyString
  | String c s' =>
      match skip with
      | S k => str_replace_from old new k s'
      | O =>
          if String.prefix old s
          then new +:+ str_replace_from old new (String.length old - 1) s'
          else String c (str_replace_from old new 0 s')
      end
  end.

Definition str_replace (s old new : string) : string :=
  str_replace_from old new 0 s.

(** [str(path)] for an absolute path. *)
Definition str_absolute (p : Path) : string := "/" +:+ str_join "/" p.

Definition set_summary (analysis : Analysis) (summary : string) : Analysis :=
  {| codebase_path := codebase_path analysis;
     project_id := project_id analysis;
     analysis_timestamp := analysis_timestamp analysis;
     total_files := total_files analysis;
     total_lines := total_lines analysis;
     languages := languages analysis;
     entry_points := entry_points analysis;
     directory_structure := directory_structure analysis;
     tech_stack := tech_stack analysis;
     architecture_summary := summary |}.

(** The analysis dict as [analyze_codebase] has assembled it when it hands
    it to the store (the body of its [try] up to the summary). *)
Definition build_analysis (env : Env) (path : Path)
    (project : option string) : Analysis :=
  let python_files := _find_python_files env path in
  let analysis :=
    {| codebase_path := str_absolute path;
       project_id := project;
       analysis_timestamp := now_isoformat env;
       total_files := length python_files;
       total_lines := _count_lines env python_files;
       languages := <["Python" := length python_files]> ∅;
       entry_points := _find_entry_points env python_files path;
       directory_structure := _analyze_structure env path;
       tech_stack := _detect_tech_stack env path;
       architecture_summary := EmptyString |} in
  set_summary analysis (_generate_summary analysis).

Definition docker_path_message (codebase_path : string) : string :=
  "Path not accessible from Docker container: " +:+ codebase_path +:+ ". "
  +:+ "The Archon backend is running in Docker and cannot access host filesystem paths directly. "
  +:+ "Solutions: (1) Use the mounted path instead: /host-filesystem/... "
  +:+ "(e.g., /host-filesystem" +:+ str_replace codebase_path "/Users" EmptyString
  +:+ "), or "
  +:+ "(2) Run backend locally with `uv run python -m src.server.main`.".

(** The service methods return their outcome and the queries they sent. *)
Definition analyze_codebase (env : Env) (store : Store)
    (codebase_path : string) (project_id : option string) :
    result Row * list StoreCall :=
  let path := resolve env codebase_path in
  match stat_exists env path with
  | Raise e => (Raise e, [])
  | Ok false =>
      if _is_running_in_docker env
      then (Raise (ValueError (docker_path_message codebase_path)), [])
      else (Raise (ValueError ("Path does not exist: " +:+ codebase_path)), [])
  | Ok true =>
      if negb (path_is_dir env path) then
        (Raise (ValueError ("Path is not a directory: " +:+ codebase_path)), [])
      else
        let analysis := build_analysis env path project_id in
        (* Store in Supabase; an exception is logged and raised again *)
        match insert_execute store analysis with
        | StoreRaises e => (Raise e, [Insert analysis])
        | StoreData (row :: _) =>
            (* the log line reads result.data[0]['id'] *)
            match row_id row with
            | Some _ => (Ok row, [Insert analysis])
            | None => (Raise (KeyError "id"), [Insert analysis])
            end
        | StoreData [] =>
            (Ok {| row_id := None; row_analysis := analysis |},
             [Insert analysis])
        end
  end.

Definition get_project_analyses (store : Store) (project : string) :
    result (list Row) * list StoreCall :=
  match select_project_execute store project with
  | StoreData data => (Ok data, [SelectProject project])
  | StoreRaises e => (Raise e, [SelectProject project])
  end.

Definition get_latest_analysis (store : Store) (codebase_path : string) :
    result (option Row) * list StoreCall :=
  match select_latest_execute store codebase_path with
  | StoreData (row :: _) => (Ok (Some row), [SelectLatest codebase_path])
  | StoreData [] => (Ok None, [SelectLatest codebase_path])
  | StoreRaises _ => (Ok None, [SelectLatest codebase_path])
  end.

End Service.

(** ** The HTTP routes: [codebase_api.py] *)

(** The JSON bodies the routes produce. *)
Inductive Body :=
| AnalysisResponse (success : bool) (analysis : Row) (message : string)
| AnalysesResponse (success : bool) (analyses : list Row) (count : nat)
| ErrorDetail (detail : string)      (* the body of an HTTPException *)
| NoBody.

Record Response := {
  status_code : nat;
  etag : option string;               (* the ETag header, when set *)
  body : Body;
}.

(** The entity-tag helpers of [utils.etag_utils], which the routes import:
    taken as parameters. *)
Record EtagUtils := {
  generate_etag : Body -> string;
  check_etag : option string -> string -> bool;
}.

(** [raise HTTPException(status_code=..., detail=...)] as the response the
    framework renders from it. *)
Definition http_exception (status : nat) (detail : string) : Response :=
  {| status_code := status; etag := None; body := ErrorDetail detail |}.

Module Api.

Definition analyze_codebase (env : Env) (store : Store)
    (codebase_path : string) (project_id : option string) :
    Response * list StoreCall :=
  match Service.analyze_codebase env store codebase_path project_id with
  | (Ok row, calls) =>
      ({| status_code := 200;
          etag := None;
          body := AnalysisResponse true row
                    ("Analyzed " +:+ pretty (total_files (row_analysis row))
                     +:+ " files") |}, calls)
  | (Raise (ValueError msg), calls) =>
      (* Client error - invalid path *)
      (http_exception 400 msg, calls)
  | (Raise e, calls) =>
      (* Server error *)
      (http_exception 500 ("Failed to analyze codebase: " +:+ exn_str e),
       calls)
  end.

Definition get_project_analyses (etags : EtagUtils) (store : Store)
    (project : string) (if_none_match : option string) :
    Response * list StoreCall :=
  match Service.get_project_analyses store project with
  | (Ok analyses, calls) =>
      let response_data := AnalysesResponse true analyses (length analyses) in
      let tag := generate_etag etags response_data in
      if check_etag etags if_none_match tag
      then ({| status_code := 304; etag := None; body := NoBody |}, calls)
      else ({| status_code := 200; etag := Some tag; body := response_data |},
            calls)
  | (Raise e, calls) =>
      (http_exception 500 ("Failed to fetch analyses: " +:+ exn_str e), calls)
  end.

Definition get_latest_analysis (etags : EtagUtils) (store : Store)
    (codebase_path : string) (if_none_match : option string) :
    Response * list StoreCall :=
  match Service.get_latest_analysis store codebase_path with
  | (Ok None, calls) =>
      (http_exception 404 ("No analysis found for path: " +:+ codebase_path),
       calls)
  | (Ok (Some analysis), calls) =>
      let response_data :=
        AnalysisResponse true analysis "Latest analysis retrieved" in
      let tag := generate_etag etags response_data in
      if check_etag etags if_none_match tag
      then ({| status_code := 304; etag := None; body := NoBody |}, calls)
      else ({| status_code := 200; etag := Some tag; body := response_data |},
            calls)
  | (Raise e, calls) =>
      (http_exception 500 ("Failed to fetch analysis: " +:+ exn_str e), calls)
  end.

End Api.

(** ** The tool functions: [codebase_tools.py] *)

(** How the HTTP request of a tool call ends: a response of the routes
    above, [httpx.TimeoutException], or any other exception.  A request
    that does not complete is given no store queries: the tool sees none. *)
Inductive Transport :=
| Delivered
| TimedOut (msg : string)
| Failed (msg : string).

(** What the tool layer takes from its libraries: the transport, the raw
    text of a response ([response.text]) and [MCPErrorFormatter.format_error]
    of [mcp_server.utils.error_handling], given the operation and the
    message of the error. *)
Record McpClient := {
  transport : Transport;
  response_text : Response -> string;
  format_error : string -> string -> string;
}.

Inductive JsonValue :=
| JBool (b : bool)
| JStr (s : string).

(** The string a tool returns, by the value that was serialised. *)
Inductive ToolOutput :=
| DumpsBody (b : Body)                          (* json.dumps(response.json()) *)
| DumpsDict (fields : list (string * JsonValue)) (* json.dumps({...}) *)
| Formatted (s : string).                        (* format_error(...) *)

(** [d.get(key)] on a serialised dict. *)
Fixpoint dict_get (key : string) (fields : list (string * JsonValue)) :
    option JsonValue :=
  match fields with
  | [] => None
  | (k, v) :: fields' => if String.eqb k key then Some v else dict_get key fields'
  end.

Module Tools.

Definition http_error (client : McpClient) (response : Response) : ToolOutput :=
  DumpsDict
    [("success", JBool false);
     ("error", JStr ("HTTP " +:+ pretty (status_code response) +:+ ": "
                     +:+ response_text client response))].

Definition codebase_analyze (client : McpClient) (env : Env) (store : Store)
    (codebase_path : string) (project_id : option string) :
    ToolOutput * list StoreCall :=
  match transport client with
  | Delivered =>
      let (response, calls) :=
        Api.analyze_codebase env store codebase_path project_id in
      if Nat.eqb (status_code response) 200 then
        match body response with
        | NoBody =>
            (Formatted (format_error client "codebase_analyze"
                          "response has no JSON body"), calls)
        | result => (DumpsBody result, calls)
        end
      else if Nat.eqb (status_code response) 400 then
        (* Client error - likely invalid path *)
        match body response with
        | NoBody =>
            (Formatted (format_error client "codebase_analyze"
                          "response has no JSON body"), calls)
        | b =>
            let error_detail :=
              match b with
              | ErrorDetail detail => detail
              | _ => response_text client response
              end in
            (DumpsDict
               [("success", JBool false);
                ("error", JStr error_detail);
                ("hint", JStr "Ensure codebase_path is an absolute path to an existing directory")],
             calls)
        end
      else (http_error client response, calls)
  | TimedOut _ =>
      (DumpsDict
         [("success", JBool false);
          ("error", JStr "Analysis timeout - codebase may be too large or complex");
          ("hint", JStr "Try analyzing a subdirectory instead of the entire project")],
       [])
  | Failed msg => (Formatted (format_error client "codebase_analyze" msg), [])
  end.

Definition codebase_get_project_analyses (client : McpClient)
    (etags : EtagUtils) (store : Store) (project : string) :
    ToolOutput * list StoreCall :=
  match transport client with
  | Delivered =>
      let (response, calls) :=
        Api.get_project_analyses etags store project None in
      if Nat.eqb (status_code response) 200 then
        match body response with
        | NoBody =>
            (Formatted (format_error client "codebase_get_project_analyses"
                          "response has no JSON body"), calls)
        | result => (DumpsBody result, calls)
        end
      else (http_error client response, calls)
  | TimedOut msg | Failed msg =>
      (Formatted (format_error client "codebase_get_project_analyses" msg), [])
  end.

Definition codebase_get_latest (client : McpClient) (etags : EtagUtils)
    (store : Store) (codebase_path : string) : ToolOutput * list StoreCall :=
  match transport client with
  | Delivered =>
      let (response, calls) :=
        Api.get_latest_analysis etags store codebase_path None in
      if Nat.eqb (status_code response) 200 then
        match body response with
        | NoBody =>
            (Formatted (format_error client "codebase_get_latest"
                          "response has no JSON body"), calls)
        | result => (DumpsBody result, calls)
        end
      else if Nat.eqb (status_code response) 404 then
        (DumpsDict
           [("success", JBool false);
            ("error", JStr "No analysis found for this codebase path");
            ("hint", JStr "Use codebase_analyze() to create a new analysis")],
         calls)
      else (http_error client response, calls)
  | TimedOut msg | Failed msg =>
      (Formatted (format_error client "codebase_get_latest" msg), [])
  end.

End Tools.

(** ** Well-formed directory trees *)

(** A real directory has one entry per name, and a name holds no ["/"]. *)
Definition slash_free (s : string) : bool :=
  negb (existsb (Ascii.eqb "/") (list_ascii_of_string s)).

Fixpoint distinct (l : list string) : bool :=
  match l with
  | [] => true
  | x :: l' => negb (existsb (String.eqb x) l') && distinct l'
  end.

Fixpoint well_formed (n : node) : bool :=
  match n with
  | File _ => true
  | Dir _ es =>
      distinct (map fst es)
      && forallb (fun e => slash_free (fst e)) es
      && forallb (fun '(_, c) => well_formed c) es
  end.

(** ** Reference definitions used in the statements *)

(** The files of a list that can be read, with their text. *)
Definition readable_texts (env : Env) (files : list Path) : list text :=
  omap (read_text env) files.

Definition line_count (t : text) : nat := length (splitlines t).



Definition has_main_guard (content : text) : bool :=
  text_in Service.main_guard_double content
  || text_in Service.main_guard_single content.

Definition entry_for (relative_path : list string) : EntryPoint :=
  {| ep_path := str_relative relative_path;
     ep_type := "cli_entry";
     ep_description := "Entry point in " +:+ path_name relative_path |}.

(** How many entries of a list carry a given [path]. *)
Definition entries_with_path (p : string) (eps : list EntryPoint) : nat :=
  length (List.filter (fun e => String.eqb (ep_path e) p) eps).

(** ** A concrete environment *)

(** Lower-casing of the ASCII letters, which is what [str.lower] does on
    ASCII text. *)
Definition ascii_lower (t : text) : text :=
  map (fun c => if N.leb 65 c && N.leb c 90 then (c + 32)%N else c) t.

(** An absolute path split at its slashes. *)
Fixpoint split_slash (cur : string) (s : string) : list string :=
  match s with
  | EmptyString =>
      match cur with EmptyString => [] | String _ _ => [cur] end
  | String c s' =>
      if Ascii.eqb c "/" then
        match cur with
        | EmptyString => split_slash EmptyString s'
        | String _ _ => cur :: split_slash EmptyString s'
        end
      else split_slash (cur +:+ String c EmptyString) s'
  end.

(** [stat] on Linux: a path with a name of more than 255 bytes fails with
    ENAMETOOLONG. *)
Definition name_too_long (p : Path) : option string :=
  if existsb (fun seg => Nat.ltb 255 (String.length seg)) p
  then Some "[Errno 36] File name too long"
  else None.



Definition example_env (root : node) : Env :=
  {| fs_root := root;
     resolve := split_slash EmptyString;
     docker_container := None;
     now_isoformat := "2024-05-01T12:00:00";
     str_lower := ascii_lower;
     stat_error := name_too_long |}.

Definition nl : text := [10%N].

(** Three lines, with the main guard. *)
Definition app_py : text :=
  text_of "import sys" ++ nl
  ++ Service.main_guard_double ++ text_of ":" ++ nl
  ++ text_of "    sys.exit(0)" ++ nl.

(** Five lines, no guard, no final line feed. *)
Definition utils_py : text :=
  text_of "def one():" ++ nl
  ++ text_of "    return 1" ++ nl
  ++ nl
  ++ text_of "def two():" ++ nl
  ++ text_of "    return 2".

(** The scenario of the specification: [app.py] next to [lib/utils.py]. *)
Definition scenario_entries (app utils : text) : list (string * node) :=
  [("app.py", File (Some app));
   ("lib", Dir true [("utils.py", File (Some utils))])].

Definition scenario_dir : node := Dir true (scenario_entries app_py utils_py).

(** The scenario checked out at [/home/proj] and at [/build/proj]. *)
Definition scenario_fs : node :=
  Dir true [("home", Dir true [("proj", scenario_dir)]);
            ("build", Dir true [("proj", scenario_dir)])].

(** A project with a cache directory and a hidden directory:
    [pkg/mod.py], [pkg/__pycache__/mod.py], [.hidden/h.py], [README]. *)
Definition cached_pkg : node :=
  Dir true [("mod.py", File (Some (text_of "x = 1")));
            ("__pycache__", Dir true [("mod.py", File None)])].

Definition cached_entries : list (string * node) :=
  [("pkg", cached_pkg);
   (".hidden", Dir true [("h.py", File (Some (text_of "y = 2")))]);
   ("README", File (Some (text_of "read me")))].

Definition cached_fs : node := Dir true [("proj", Dir true cached_entries)].

(** A project with both Docker manifests and a requirements file. *)
Definition docker_fs : node :=
  Dir true
    [("srv", Dir true
        [("Dockerfile", File (Some (text_of "FROM python:3.12")));
         ("docker-compose.yml", File (Some (text_of "services:")));
         ("requirements.txt",
          File (Some (text_of "FastAPI" ++ nl ++ text_of "psycopg2" ++ nl
                      ++ text_of "pytest")))])].

(** Stores: one that stores nothing, one that returns the stored row, one
    whose every query raises. *)
Definition silent_store : Store :=
  {| insert_execute := fun _ => StoreData [];
     select_project_execute := fun _ => StoreData [];
     select_latest_execute := fun _ => StoreData [] |}.

Definition echo_store (id : string) : Store :=
  {| insert_execute :=
       fun a => StoreData [{| row_id := Some id; row_analysis := a |}];
     select_project_execute := fun _ => StoreData [];
     select_latest_execute := fun _ => StoreData [] |}.

Definition broken_store (msg : string) : Store :=
  {| insert_execute := fun _ => StoreRaises (StoreError msg);
     select_project_execute := fun _ => StoreRaises (StoreError msg);
     select_latest_execute := fun _ => StoreRaises (StoreError msg) |}.


Definition example_etags : EtagUtils :=
  {| generate_etag := fun _ => "etag-1";
     check_etag := fun if_none_match tag =>
                     match if_none_match with
                     | Some t => String.eqb t tag
                     | None => false
                     end |}.

Definition example_client : McpClient :=
  {| transport := Delivered;
     response_text := fun r =>
                        match body r with
                        | ErrorDetail d => "detail: " +:+ d
                        | _ => EmptyString
                        end;
     format_error := fun operation msg => operation +:+ ": " +:+ msg |}.

(** A project whose only Python files sit in a virtual environment and in
    a build directory. *)
Definition vendored_fs : node :=
  Dir true
    [("proj", Dir true
        [(".venv", Dir true
            [("lib", Dir true
                [("site.py",
                  File (Some (Service.main_guard_single ++ text_of ":")))])]);
         ("build", Dir true [("gen.py", File (Some (text_of "z = 3")))]);
         ("README", File (Some (text_of "read me")))])].

(** The manifest text [_detect_tech_stack] searches: lower-cased, and
    absent when the file is missing or cannot be read. *)
Definition manifest_text (env : Env) (path : Path) (name : string) :
    option text :=
  if path_exists env (path ++ [name])
  then option_map (str_lower env) (read_text env (path ++ [name]))
  else None.

Definition manifest_has (env : Env) (path : Path) (name kw : string) : bool :=
  match manifest_text env path name with
  | Some content => text_in (text_of kw) content
  | None => false
  end.

(** How often a tag occurs in a bucket. *)
Definition tag_count (tag : string) (bucket : list string) : nat :=
  count_occ string_dec bucket tag.

(** The record [_analyze_structure] stores for a directory. *)
Definition dir_info (c : node) : DirInfo :=
  {| dir_type := "directory"; python_file_count := length (rglob_rel c) |}.

Definition hidden (name : string) : bool := str_startswith name ".".

(** The number of nodes of a tree. *)
Fixpoint node_size (n : node) : nat :=
  match n with
  | File _ => 1
  | Dir _ es => S (list_sum (map (fun '(_, c) => node_size c) es))
  end.

(** [f] lies strictly below the directory [dir]. *)
Definition beneath (dir f : Path) : bool :=
  match relative_to f dir with
  | Some (_ :: _) => true
  | _ => false
  end.

(** One step of the loop of [_analyze_structure]. *)
Definition structure_step (structure : gmap string DirInfo)
    (item : string * node) : gmap string DirInfo :=
  if is_dir (snd item) && negb (str_startswith (fst item) ".")
  then <[fst item := dir_info (snd item)]> structure
  else structure.

(** The test [_find_entry_points] applies to a file: it can be read and
    its text holds the main guard. *)
Definition guarded (env : Env) (f : Path) : bool :=
  match read_text env f with
  | Some content => has_main_guard content
  | None => false
  end.

(** ** Reference definitions for the remaining properties *)

(** The relative path [rel] can be walked from [n] by a recursive glob:
    every directory on the way can be listed and has the next segment. *)
Fixpoint walkable (n : node) (rel : list string) : bool :=
  match rel with
  | [] => true
  | seg :: rest =>
      match n with
      | Dir true es =>
          match find_entry seg es with
          | Some c => match rest with [] => true | _ :: _ => walkable c rest end
          | None => false
          end
      | _ => false
      end
  end.

(** A child that [_analyze_structure] records. *)
Definition visible_dir (item : string * node) : bool :=
  is_dir (snd item) && negb (hidden (fst item)).

(** A string without its commas. *)
Fixpoint strip_commas (l : list ascii) : list ascii :=
  match l with
  | [] => []
  | c :: l' => if Ascii.eqb c "," then strip_commas l' else c :: strip_commas l'
  end.

Definition is_digit (c : ascii) : bool :=
  existsb (Ascii.eqb c)
    ["0"; "1"; "2"; "3"; "4"; "5"; "6"; "7"; "8"; "9"]%char.


(** A store that answers each query with the given rows. *)
Definition rows_store (rows : list Row) : Store :=
  {| insert_execute := fun _ => StoreData rows;
     select_project_execute := fun _ => StoreData rows;
     select_latest_execute := fun _ => StoreData rows |}.

(** A client whose request times out. *)
Definition timeout_client : McpClient :=
  {| transport := TimedOut "timed out";
     response_text := response_text example_client;
     format_error := format_error example_client |}.

(** * Properties *)

Import Service.

(** ** Loops as list functions *)

Lemma fold_left_collect {A : Type} (skip : A -> bool) (l : list A) (acc : list A) :
  fold_left (fun out x => if skip x then out else out ++ [x]) l acc
  = acc ++ List.filter (fun x => negb (skip x)) l.
Proof.
  revert acc. induction l as [|x l IH]; intros acc; simpl.
  - now rewrite app_nil_r.
  - rewrite IH. destruct (skip x); simpl; [reflexivity|].
    now rewrite <- app_assoc.
Qed.

Lemma find_python_files_filter env path :
  _find_python_files env path
  = List.filter (fun f => negb (ignored f)) (rglob env path).
Proof. unfold _find_python_files. now rewrite fold_left_collect. Qed.

Lemma count_lines_from env files acc :
  fold_left (fun total_lines py_file =>
               match read_text env py_file with
               | Some content => total_lines + length (splitlines content)
               | None => total_lines
               end) files acc
  = acc + list_sum (map line_count (readable_texts env files)).
Proof.
  revert acc. induction files as [|f files IH]; intros acc; simpl.
  - lia.
  - rewrite IH. unfold readable_texts. simpl.
    destruct (read_text env f); simpl; unfold line_count; lia.
Qed.

Lemma count_lines_app env files1 files2 :
  _count_lines env (files1 ++ files2)
  = _count_lines env files1 + _count_lines env files2.
Proof.
  unfold _count_lines. rewrite fold_left_app, !count_lines_from. lia.
Qed.

(** ** Line splitting *)







(** ** The scan inside [analyze_codebase] *)

(** On a path that resolves to a directory, [analyze_codebase] sends one
    query to the store, the insertion of [build_analysis]; it returns the
    first row the store answers, or the analysis itself when the store
    answers no row. *)
Lemma stat_exists_dir env p :
  path_is_dir env p = true -> stat_exists env p = Ok true.
Proof.
  unfold path_is_dir, stat_exists.
  destruct (fs_get (fs_root env) p); [reflexivity|discriminate].
Qed.

Lemma analyze_codebase_scans env store p project :
  path_is_dir env (resolve env p) = true ->
  let a := build_analysis env (resolve env p) project in
  snd (analyze_codebase env store p project) = [Insert a]
  /\ (insert_execute store a = StoreData [] ->
      fst (analyze_codebase env store p project)
      = Ok {| row_id := None; row_analysis := a |})
  /\ (forall id rows,
        insert_execute store a
        = StoreData ({| row_id := Some id; row_analysis := a |} :: rows) ->
        fst (analyze_codebase env store p project)
        = Ok {| row_id := Some id; row_analysis := a |}).
Proof.
  intros Hdir a. unfold analyze_codebase.
  rewrite (stat_exists_dir env (resolve env p) Hdir), Hdir. simpl. fold a.
  split; [|split].
  - destruct (insert_execute store a) as [e|[|row rows]]; try reflexivity.
    destruct (row_id row); reflexivity.
  - intros ->. reflexivity.
  - intros id rows ->. reflexivity.
Qed.

(** ** The ignore-set *)

Lemma ignored_true_iff f :
  ignored f = true
  <-> exists seg, In seg (parts f) /\ In seg ignore_patterns.
Proof.
  unfold ignored. rewrite existsb_exists. split.
  - intros [pat [Hpat Hin]]. apply existsb_exists in Hin as [seg [Hseg Heq]].
    apply String.eqb_eq in Heq. subst. eauto.
  - intros [seg [Hseg Hpat]]. exists seg. split; [assumption|].
    apply existsb_exists. exists seg. split; [assumption|].
    apply String.eqb_refl.
Qed.

Lemma rglob_under env path f :
  In f (rglob env path) -> exists rel, f = path ++ rel.
Proof.
  unfold rglob. destruct (fs_get (fs_root env) path); [|intros []].
  intros Hin. apply in_map_iff in Hin as [rel [<- _]]. eauto.
Qed.

Lemma filter_all_false {A : Type} (keep : A -> bool) (l : list A) :
  (forall x, In x l -> keep x = false) -> List.filter keep l = [].
Proof.
  induction l as [|x l IH]; intros H; simpl; [reflexivity|].
  rewrite (H x (or_introl eq_refl)). apply IH. intros y Hy. apply H. now right.
Qed.

Lemma no_files_no_results env path project :
  _find_python_files env path = [] ->
  total_files (build_analysis env path project) = 0
  /\ total_lines (build_analysis env path project) = 0
  /\ entry_points (build_analysis env path project) = [].
Proof.
  intros H. unfold build_analysis. simpl. rewrite H. repeat split.
Qed.

(** C5. When every path with the recognised extension below the scanned
    root has, among its segments below the root, a name of the ignore-set
    (.venv, venv, env, __pycache__, .git, node_modules, .pytest_cache,
    .mypy_cache, dist, build, .tox), the analysis reports no file and no
    entry point. *)
Theorem only_ignored_files_reports_nothing env path project n :
  fs_get (fs_root env) path = Some n ->
  (forall rel, In rel (rglob_rel n) ->
               exists seg, In seg rel /\ In seg ignore_patterns) ->
  total_files (build_analysis env path project) = 0
  /\ entry_points (build_analysis env path project) = [].
Proof.
  intros Hn Hall.
  assert (Hnone : _find_python_files env path = []).
  { rewrite find_python_files_filter. apply filter_all_false.
    intros f Hf. apply negb_false_iff, ignored_true_iff.
    unfold rglob in Hf. rewrite Hn in Hf.
    apply in_map_iff in Hf as [rel [<- Hrel]].
    destruct (Hall rel Hrel) as [seg [Hseg Hpat]].
    exists seg. split; [|assumption].
    unfold parts. right. apply in_or_app. now right. }
  destruct (no_files_no_results env path project Hnone) as [H1 [_ H3]].
  now split.
Qed.

Lemma only_ignored_files_reports_nothing_witness :
  let env := example_env vendored_fs in
  rglob env ["proj"]
  = [["proj"; ".venv"; "lib"; "site.py"]; ["proj"; "build"; "gen.py"]]
  /\ total_files (build_analysis env ["proj"] None) = 0
  /\ entry_points (build_analysis env ["proj"] None) = [].
Proof.
  intros env. split; [reflexivity|].
  destruct (fs_get (fs_root env) ["proj"]) as [n|] eqn:Hn; [|discriminate].
  apply (only_ignored_files_reports_nothing env ["proj"] None n Hn).
  injection Hn as <-.
  intros rel [<-|[<-|[]]].
  - exists ".venv". split; [now left|]. unfold ignore_patterns. simpl. tauto.
  - exists "build". split; [now left|]. unfold ignore_patterns. simpl. tauto.
Defined.

(** C9. The ignore-set is tested against every part of a file's absolute
    path, the parts of the scanned root included: when a segment of the
    root's own path (an ancestor directory, or the root's name) is in the
    ignore-set, every file is excluded and the analysis reports no file, no
    line and no entry point, whatever the root contains. *)
Theorem ignored_ancestor_excludes_every_file env path project seg :
  In seg path ->
  In seg ignore_patterns ->
  _find_python_files env path = []
  /\ total_files (build_analysis env path project) = 0
  /\ total_lines (build_analysis env path project) = 0
  /\ entry_points (build_analysis env path project) = [].
Proof.
  intros Hseg Hpat.
  assert (Hnone : _find_python_files env path = []).
  { rewrite find_python_files_filter. apply filter_all_false.
    intros f Hf. apply negb_false_iff, ignored_true_iff.
    apply rglob_under in Hf as [rel ->].
    exists seg. split; [|assumption].
    unfold parts. right. apply in_or_app. now left. }
  split; [assumption|]. now apply no_files_no_results.
Qed.

Lemma ignored_ancestor_excludes_every_file_witness :
  let env := example_env scenario_fs in
  rglob env ["build"; "proj"]
  = [["build"; "proj"; "app.py"]; ["build"; "proj"; "lib"; "utils.py"]]
  /\ _find_python_files env ["build"; "proj"] = []
  /\ total_files (build_analysis env ["build"; "proj"] None) = 0
  /\ total_lines (build_analysis env ["build"; "proj"] None) = 0
  /\ entry_points (build_analysis env ["build"; "proj"] None) = [].
Proof.
  intros env. split; [reflexivity|].
  apply (ignored_ancestor_excludes_every_file env ["build"; "proj"] None "build").
  - now left.
  - unfold ignore_patterns. simpl. tauto.
Defined.

(** ** Errors *)






(** The latest-analysis query is different: the service turns the failure
    of the store into [None], and the route answers 404. *)
Lemma latest_analysis_store_failure_is_404 etags store path inm e :
  select_latest_execute store path = StoreRaises e ->
  get_latest_analysis store path = (Ok None, [SelectLatest path])
  /\ Api.get_latest_analysis etags store path inm
     = (http_exception 404 ("No analysis found for path: " +:+ path),
        [SelectLatest path]).
Proof.
  intros Hraise. unfold Api.get_latest_analysis, get_latest_analysis.
  now rewrite Hraise.
Qed.

(** C8. At a store whose queries raise, the project route answers 500 with
    the message of the store, but the latest-analysis route answers 404
    "No analysis found" and the tool reports the not-found dict: the read
    failure is turned into a not-found result, and its message is lost. *)
Theorem latest_analysis_swallows_store_failure :
  let store := broken_store "connection refused" in
  get_latest_analysis store "/home/proj"
  = (Ok None, [SelectLatest "/home/proj"])
  /\ fst (Api.get_latest_analysis example_etags store "/home/proj" None)
     = http_exception 404 "No analysis found for path: /home/proj"
  /\ fst (Tools.codebase_get_latest example_client example_etags store
            "/home/proj")
     = DumpsDict
         [("success", JBool false);
          ("error", JStr "No analysis found for this codebase path");
          ("hint", JStr "Use codebase_analyze() to create a new analysis")]
  /\ fst (Api.get_project_analyses example_etags store "p-1" None)
     = http_exception 500 "Failed to fetch analyses: connection refused".
Proof. repeat split. Qed.

(** ** The technology stack *)

Lemma detect_tech_stack_shape env path :
  let has := manifest_has env path in
  _detect_tech_stack env path
  = {| frameworks :=
         append_if (has "requirements.txt" "django") "Django"
           (append_if (has "requirements.txt" "flask") "Flask"
              (append_if (has "requirements.txt" "fastapi") "FastAPI" []));
       databases :=
         append_if (has "requirements.txt" "sqlite") "SQLite"
           (append_if (has "requirements.txt" "chromadb") "ChromaDB"
              (append_if (has "requirements.txt" "postgresql"
                          || has "requirements.txt" "psycopg") "PostgreSQL" []));
       tools :=
         append_if (path_exists env (path ++ ["Dockerfile"])
                    || path_exists env (path ++ ["docker-compose.yml"]))
           "Docker"
           (append_if (has "pyproject.toml" "uv") "uv"
              (append_if (has "pyproject.toml" "poetry") "Poetry"
                 (append_if (has "requirements.txt" "pytest") "pytest" []))) |}.
Proof.
  unfold _detect_tech_stack, manifest_has, manifest_text.
  destruct (path_exists env (path ++ ["requirements.txt"]));
    [destruct (read_text env (path ++ ["requirements.txt"]))|];
    (destruct (path_exists env (path ++ ["pyproject.toml"]));
     [destruct (read_text env (path ++ ["pyproject.toml"]))|]);
    reflexivity.
Qed.

Lemma in_append_if cond tag l x :
  In x (append_if cond tag l) -> x = tag \/ In x l.
Proof.
  unfold append_if. destruct cond; [|now right].
  intros H. apply in_app_or in H as [H|[H|[]]]; auto.
Qed.

Lemma NoDup_append_if cond tag l :
  NoDup l -> ~ In tag l -> NoDup (append_if cond tag l).
Proof.
  intros Hl Hfresh. unfold append_if. destruct cond; [|assumption].
  apply NoDup_app. repeat split.
  - assumption.
  - intros x Hx Hx'. apply list_elem_of_In in Hx, Hx'.
    destruct Hx' as [<-|[]]. contradiction.
  - apply NoDup_singleton.
Qed.

Ltac fresh_tag :=
  let H := fresh in
  intros H;
  repeat (apply in_append_if in H as [H|H]; [discriminate H|]);
  destruct H.

Ltac bucket_NoDup :=
  repeat (apply NoDup_append_if; [|fresh_tag]); apply NoDup_nil_2.

Lemma detect_tech_stack_NoDup env path :
  NoDup (frameworks (_detect_tech_stack env path))
  /\ NoDup (databases (_detect_tech_stack env path))
  /\ NoDup (tools (_detect_tech_stack env path)).
Proof.
  rewrite detect_tech_stack_shape. simpl. repeat split; bucket_NoDup.
Qed.

Lemma NoDup_tag_count tag bucket : NoDup bucket -> tag_count tag bucket <= 1.
Proof.
  intros H. unfold tag_count.
  apply NoDup_ListNoDup in H.
  now apply (proj1 (List.NoDup_count_occ string_dec bucket)).
Qed.

Lemma no_bucket_repeats_a_tag env path tag :
  tag_count tag (frameworks (_detect_tech_stack env path)) <= 1
  /\ tag_count tag (databases (_detect_tech_stack env path)) <= 1
  /\ tag_count tag (tools (_detect_tech_stack env path)) <= 1.
Proof.
  destruct (detect_tech_stack_NoDup env path) as [Hf [Hd Ht]].
  repeat split; now apply NoDup_tag_count.
Qed.

(** C7, as the code has it. No bucket of [tech_stack] holds a tag twice:
    every tag is appended by one test only. In particular, with both Docker
    manifests present the [tools] bucket holds [Docker] exactly once. *)
Theorem tech_stack_tags_are_not_repeated env path tag :
  let ts := _detect_tech_stack env path in
  tag_count tag (frameworks ts) <= 1
  /\ tag_count tag (databases ts) <= 1
  /\ tag_count tag (tools ts) <= 1
  /\ (path_exists env (path ++ ["Dockerfile"]) = true ->
      path_exists env (path ++ ["docker-compose.yml"]) = true ->
      tag_count "Docker" (tools ts) = 1).
Proof.
  intros ts. subst ts.
  destruct (no_bucket_repeats_a_tag env path tag) as [Hf [Hd Ht]].
  repeat split; try assumption.
  intros Hdocker Hcompose.
  destruct (no_bucket_repeats_a_tag env path "Docker") as [_ [_ Hle]].
  assert (Hin : In "Docker" (tools (_detect_tech_stack env path))).
  { rewrite detect_tech_stack_shape. simpl. rewrite Hdocker, Hcompose. simpl.
    apply in_or_app. right. now left. }
  apply (count_occ_In string_dec) in Hin. unfold tag_count in *. lia.
Qed.

Lemma tech_stack_tags_are_not_repeated_witness :
  let env := example_env docker_fs in
  let ts := _detect_tech_stack env ["srv"] in
  tag_count "Docker" (frameworks ts) <= 1
  /\ tag_count "Docker" (databases ts) <= 1
  /\ tag_count "Docker" (tools ts) <= 1
  /\ (path_exists env (["srv"] ++ ["Dockerfile"]) = true ->
      path_exists env (["srv"] ++ ["docker-compose.yml"]) = true ->
      tag_count "Docker" (tools ts) = 1).
Proof.
  intros env. apply (tech_stack_tags_are_not_repeated env ["srv"] "Docker").
Defined.

(** Against C7 as stated: with both Docker manifests present
    the [tools] bucket lists [Docker] once, and no root at all yields a
    bucket with a tag twice. *)
Lemma docker_tag_is_listed_once :
  let env := example_env docker_fs in
  path_exists env ["srv"; "Dockerfile"] = true
  /\ path_exists env ["srv"; "docker-compose.yml"] = true
  /\ tools (_detect_tech_stack env ["srv"]) = ["pytest"; "Docker"]
  /\ ~ (exists env path tag,
          2 <= tag_count tag (frameworks (_detect_tech_stack env path))
          \/ 2 <= tag_count tag (databases (_detect_tech_stack env path))
          \/ 2 <= tag_count tag (tools (_detect_tech_stack env path))).
Proof.
  intros env. repeat split.
  intros [env' [path [tag H]]].
  destruct (no_bucket_repeats_a_tag env' path tag) as [Hf [Hd Ht]]. lia.
Qed.

(** ** The directory structure *)

Lemma fs_get_app n p q :
  fs_get n (p ++ q)
  = match fs_get n p with Some m => fs_get m q | None => None end.
Proof.
  revert n. induction p as [|seg p IH]; intros n; simpl; [reflexivity|].
  destruct n as [content|listable es]; [reflexivity|].
  destruct (find_entry seg es); [apply IH|reflexivity].
Qed.

Lemma distinct_cons x l :
  distinct (x :: l) = true -> ~ In x l /\ distinct l = true.
Proof.
  simpl. intros H. apply andb_prop in H as [Hx Hl]. split; [|assumption].
  intros Hin. apply negb_true_iff in Hx.
  assert (existsb (String.eqb x) l = true); [|congruence].
  apply existsb_exists. exists x. split; [assumption|apply String.eqb_refl].
Qed.

Lemma find_entry_distinct es k c :
  distinct (map fst es) = true -> In (k, c) es -> find_entry k es = Some c.
Proof.
  induction es as [|[nm n] es IH]; intros Hd Hin; [destruct Hin|].
  simpl in Hd. change (distinct (nm :: map fst es) = true) in Hd.
  apply distinct_cons in Hd as [Hfresh Hd]. simpl.
  destruct Hin as [Heq|Hin].
  - injection Heq as -> ->. now rewrite String.eqb_refl.
  - destruct (String.eqb nm k) eqn:E.
    + apply String.eqb_eq in E. subst nm. exfalso. apply Hfresh.
      apply in_map_iff. now exists (k, c).
    + now apply IH.
Qed.

Lemma node_size_entry es k c listable :
  In (k, c) es -> node_size c < node_size (Dir listable es).
Proof.
  intros Hin. simpl. apply Nat.lt_succ_r.
  induction es as [|[nm n] es IH]; [destruct Hin|]. simpl.
  destruct Hin as [Heq|Hin].
  - injection Heq as -> ->. lia.
  - specialize (IH Hin). lia.
Qed.

Lemma analyze_structure_fold env path :
  _analyze_structure env path
  = match iterdir env path with
    | Some items => fold_left structure_step items ∅
    | None => ∅
    end.
Proof. reflexivity. Qed.

Lemma structure_fold_key items (acc : gmap string DirInfo) k info :
  fold_left structure_step items acc !! k = Some info ->
  acc !! k = Some info
  \/ exists c, In (k, c) items /\ is_dir c = true /\ hidden k = false
               /\ info = dir_info c.
Proof.
  revert acc. induction items as [|[nm n] items IH]; intros acc H; simpl in H.
  - now left.
  - apply IH in H as [H|[c [Hin Hc]]].
    + unfold structure_step in H. simpl in H.
      destruct (is_dir n && negb (str_startswith nm ".")) eqn:E.
      * destruct (decide (nm = k)) as [->|Hne].
        -- rewrite lookup_insert_eq in H. injection H as <-.
           apply andb_prop in E as [Hd Hh]. apply negb_true_iff in Hh.
           right. exists n. repeat split; auto. now left.
        -- rewrite lookup_insert_ne in H by assumption. now left.
      * now left.
    + right. exists c. split; [now right|assumption].
Qed.

Lemma structure_fold_absent items (acc : gmap string DirInfo) k :
  ~ In k (map fst items) ->
  fold_left structure_step items acc !! k = acc !! k.
Proof.
  revert acc. induction items as [|[nm n] items IH]; intros acc Hk; simpl.
  - reflexivity.
  - simpl in Hk. rewrite IH by tauto.
    unfold structure_step. simpl.
    destruct (is_dir n && negb (str_startswith nm ".")); [|reflexivity].
    apply lookup_insert_ne. tauto.
Qed.

Lemma structure_fold_entry items (acc : gmap string DirInfo) k c :
  distinct (map fst items) = true ->
  In (k, c) items ->
  fold_left structure_step items acc !! k
  = if is_dir c && negb (hidden k) then Some (dir_info c) else acc !! k.
Proof.
  revert acc. induction items as [|[nm n] items IH]; intros acc Hd Hin.
  - destruct Hin.
  - change (distinct (nm :: map fst items) = true) in Hd.
    apply distinct_cons in Hd as [Hfresh Hd]. simpl.
    destruct Hin as [Heq|Hin].
    + injection Heq as -> ->. rewrite structure_fold_absent by assumption.
      unfold structure_step, hidden. simpl.
      destruct (is_dir c && negb (str_startswith k ".")); [|reflexivity].
      apply lookup_insert_eq.
    + rewrite IH by assumption.
      destruct (is_dir c && negb (hidden k)); [reflexivity|].
      unfold structure_step. simpl.
      destruct (is_dir n && negb (str_startswith nm ".")); [|reflexivity].
      apply lookup_insert_ne. intros ->. apply Hfresh.
      apply in_map_iff. now exists (k, c).
Qed.

Lemma iterdir_Some env path es :
  iterdir env path = Some es ->
  fs_get (fs_root env) path = Some (Dir true es).
Proof.
  unfold iterdir. destruct (fs_get (fs_root env) path) as [[c|[|] es']|];
    try discriminate. now intros [= ->].
Qed.

(** C6. Every key of [directory_structure] is the name of a listed child of
    the scanned root that is a directory and whose name does not begin with
    a dot, and its record describes that child, which is never the root
    itself. With one entry per name in the listing, a child that is not a
    directory, or whose name begins with a dot, has no key. *)
Theorem directory_structure_keys env path :
  (forall k info,
     _analyze_structure env path !! k = Some info ->
     hidden k = false
     /\ exists es c,
          fs_get (fs_root env) path = Some (Dir true es)
          /\ In (k, c) es /\ is_dir c = true
          /\ c <> Dir true es /\ info = dir_info c)
  /\ (forall es k c,
        iterdir env path = Some es ->
        distinct (map fst es) = true ->
        In (k, c) es ->
        is_dir c = false \/ hidden k = true ->
        _analyze_structure env path !! k = None).
Proof.
  split.
  - intros k info H. rewrite analyze_structure_fold in H.
    destruct (iterdir env path) as [es|] eqn:Hes;
      [|rewrite lookup_empty in H; discriminate].
    apply structure_fold_key in H as [H|[c [Hin [Hd [Hh ->]]]]];
      [rewrite lookup_empty in H; discriminate|].
    split; [assumption|]. exists es, c.
    repeat split; auto using iterdir_Some.
    intros ->. pose proof (node_size_entry es k (Dir true es) true Hin). lia.
  - intros es k c Hes Hd Hin Hskip.
    rewrite analyze_structure_fold, Hes.
    rewrite (structure_fold_entry es ∅ k c Hd Hin).
    destruct Hskip as [-> | ->]; simpl.
    + apply lookup_empty.
    + rewrite andb_false_r. apply lookup_empty.
Qed.

Lemma directory_structure_keys_witness :
  let env := example_env cached_fs in
  let pkg := Dir true [("mod.py", File (Some (text_of "x = 1")));
                       ("__pycache__", Dir true [("mod.py", File None)])] in
  (hidden "pkg" = false
   /\ exists es c,
        fs_get (fs_root env) ["proj"] = Some (Dir true es)
        /\ In ("pkg", c) es /\ is_dir c = true
        /\ c <> Dir true es /\ dir_info pkg = dir_info c)
  /\ _analyze_structure env ["proj"] !! ".hidden" = None
  /\ _analyze_structure env ["proj"] !! "README" = None.
Proof.
  intros env pkg.
  destruct (directory_structure_keys env ["proj"]) as [Hkey Hnone].
  split; [|split].
  - apply (Hkey "pkg" (dir_info pkg)). vm_compute. reflexivity.
  - apply (Hnone _ ".hidden"
             (Dir true [("h.py", File (Some (text_of "y = 2")))]) eq_refl eq_refl).
    + right. now left.
    + now right.
  - apply (Hnone _ "README" (File (Some (text_of "read me"))) eq_refl eq_refl).
    + right. right. now left.
    + now left.
Defined.

(** ** Raw counts against collected files *)

Lemma relative_to_app p a b :
  relative_to (p ++ a) (p ++ b) = relative_to a b.
Proof.
  induction p as [|seg p IH]; simpl; [reflexivity|].
  now rewrite String.eqb_refl.
Qed.

Lemma relative_to_self_app p rel : relative_to (p ++ rel) p = Some rel.
Proof.
  rewrite <- (app_nil_r p) at 2. rewrite relative_to_app.
  destruct rel; reflexivity.
Qed.

Lemma rglob_rel_dir es :
  rglob_rel (Dir true es)
  = map (fun e => [fst e]) (List.filter (fun e => matches_py (fst e)) es)
    ++ flat_map (fun '(nm, c) => map (cons nm) (rglob_rel c)) es.
Proof. reflexivity. Qed.

Lemma rglob_rel_nonempty n rel : In rel (rglob_rel n) -> rel <> [].
Proof.
  destruct n as [content|[|] es]; simpl; try tauto.
  intros Hin. apply in_app_or in Hin as [Hin|Hin].
  - apply in_map_iff in Hin as [e [<- _]]. discriminate.
  - apply in_flat_map in Hin as [[nm c] [_ Hin]].
    apply in_map_iff in Hin as [r [<- _]]. discriminate.
Qed.

Lemma filter_map_app (keep : Path -> bool) p l :
  List.filter keep (map (app p) l)
  = map (app p) (List.filter (fun rel => keep (p ++ rel)) l).
Proof.
  induction l as [|rel l IH]; simpl; [reflexivity|].
  destruct (keep (p ++ rel)); simpl; now rewrite IH.
Qed.

Lemma filter_filter_length {A : Type} (p q : A -> bool) l :
  length (List.filter p (List.filter q l)) <= length (List.filter p l).
Proof.
  induction l as [|x l IH]; simpl; [lia|].
  destruct (q x), (p x) eqn:E; simpl; rewrite ?E; simpl; lia.
Qed.

Lemma beneath_child k nm rel :
  rel <> [] -> beneath [k] (nm :: rel) = String.eqb k nm.
Proof.
  intros Hne. unfold beneath. simpl.
  destruct (String.eqb k nm); [|reflexivity].
  destruct rel; [contradiction|reflexivity].
Qed.

Lemma filter_beneath_child k nm c :
  List.filter (beneath [k]) (map (cons nm) (rglob_rel c))
  = if String.eqb k nm then map (cons nm) (rglob_rel c) else [].
Proof.
  assert (H : forall l, (forall rel, In rel l -> rel <> []) ->
                        List.filter (beneath [k]) (map (cons nm) l)
                        = if String.eqb k nm then map (cons nm) l else []).
  { induction l as [|rel l IH]; intros Hne; simpl.
    - now destruct (String.eqb k nm).
    - change (beneath [k] (nm :: rel)) with (beneath [k] (nm :: rel)).
      rewrite beneath_child by (apply Hne; now left).
      rewrite IH by (intros r Hr; apply Hne; now right).
      now destruct (String.eqb k nm). }
  apply H. intros rel. apply rglob_rel_nonempty.
Qed.

Lemma filter_beneath_top k (es : list (string * node)) :
  List.filter (beneath [k])
    (map (fun e => [fst e]) (List.filter (fun e => matches_py (fst e)) es))
  = [].
Proof.
  apply filter_all_false. intros rel Hin.
  apply in_map_iff in Hin as [e [<- _]].
  unfold beneath. simpl. now destruct (String.eqb k (fst e)).
Qed.

Lemma filter_beneath_deep es k c :
  distinct (map fst es) = true ->
  In (k, c) es ->
  List.filter (beneath [k])
    (flat_map (fun '(nm, n) => map (cons nm) (rglob_rel n)) es)
  = map (cons k) (rglob_rel c).
Proof.
  induction es as [|[nm n] es IH]; intros Hd Hin; [destruct Hin|].
  change (distinct (nm :: map fst es) = true) in Hd.
  apply distinct_cons in Hd as [Hfresh Hd].
  simpl. rewrite List.filter_app, filter_beneath_child.
  destruct Hin as [Heq|Hin].
  - injection Heq as -> ->. rewrite String.eqb_refl.
    rewrite filter_all_false; [now rewrite app_nil_r|].
    intros rel Hrel. apply in_flat_map in Hrel as [[nm' n'] [He Hrel]].
    apply in_map_iff in Hrel as [r [<- Hr]].
    rewrite beneath_child by (now apply rglob_rel_nonempty in Hr).
    apply String.eqb_neq. intros ->. apply Hfresh.
    apply in_map_iff. now exists (nm', n').
  - destruct (String.eqb k nm) eqn:E.
    + apply String.eqb_eq in E. subst nm. exfalso. apply Hfresh.
      apply in_map_iff. now exists (k, c).
    + now apply IH.
Qed.

Lemma rglob_beneath_child env path es k c :
  iterdir env path = Some es ->
  distinct (map fst es) = true ->
  In (k, c) es ->
  List.filter (beneath (path ++ [k])) (rglob env path)
  = map (app (path ++ [k])) (rglob_rel c)
  /\ rglob env (path ++ [k]) = map (app (path ++ [k])) (rglob_rel c).
Proof.
  intros Hes Hd Hin. apply iterdir_Some in Hes. split.
  - unfold rglob. rewrite Hes, filter_map_app.
    rewrite (List.filter_ext _ (beneath [k]))
      by (intros rel; unfold beneath; now rewrite relative_to_app).
    rewrite rglob_rel_dir, List.filter_app, filter_beneath_top.
    rewrite (filter_beneath_deep es k c Hd Hin). simpl.
    rewrite !map_map. apply map_ext. intros rel. now rewrite <- app_assoc.
  - unfold rglob. rewrite fs_get_app, Hes. simpl.
    now rewrite (find_entry_distinct es k c Hd Hin).
Qed.

(** C10. The count stored for a top-level directory that is not hidden is
    the raw length of its own recursive glob, with no ignore-set test: it is
    at least the number of collected files below that directory, and it can
    be strictly larger (a file under [__pycache__] is counted for [pkg] but
    is not among the collected files). *)
Theorem directory_counts_are_unfiltered :
  (forall env path es k c,
     iterdir env path = Some es ->
     distinct (map fst es) = true ->
     In (k, c) es ->
     is_dir c = true ->
     hidden k = false ->
     exists info,
       _analyze_structure env path !! k = Some info
       /\ dir_type info = "directory"
       /\ python_file_count info = length (rglob env (path ++ [k]))
       /\ python_file_count info
          = length (List.filter (beneath (path ++ [k])) (rglob env path))
       /\ length (List.filter (beneath (path ++ [k]))
                    (_find_python_files env path))
          <= python_file_count info)
  /\ (exists env path k info,
        _analyze_structure env path !! k = Some info
        /\ length (List.filter (beneath (path ++ [k]))
                     (_find_python_files env path))
           < python_file_count info).
Proof.
  split.
  - intros env path es k c Hes Hd Hin Hdir Hvis.
    exists (dir_info c).
    destruct (rglob_beneath_child env path es k c Hes Hd Hin) as [Hfil Hsub].
    assert (Hraw : python_file_count (dir_info c)
                   = length (List.filter (beneath (path ++ [k]))
                               (rglob env path))).
    { rewrite Hfil, length_map. reflexivity. }
    split; [|split; [|split; [|split]]].
    + rewrite analyze_structure_fold, Hes.
      rewrite (structure_fold_entry es ∅ k c Hd Hin), Hdir, Hvis.
      reflexivity.
    + reflexivity.
    + rewrite Hsub, length_map. reflexivity.
    + exact Hraw.
    + rewrite Hraw, find_python_files_filter. apply filter_filter_length.
  - exists (example_env cached_fs), ["proj"], "pkg",
      (dir_info (Dir true [("mod.py", File (Some (text_of "x = 1")));
                           ("__pycache__", Dir true [("mod.py", File None)])])).
    split; [vm_compute; reflexivity|]. vm_compute. lia.
Qed.

Lemma directory_counts_are_unfiltered_witness :
  let env := example_env cached_fs in
  exists info,
    _analyze_structure env ["proj"] !! "pkg" = Some info
    /\ dir_type info = "directory"
    /\ python_file_count info = length (rglob env (["proj"] ++ ["pkg"]))
    /\ python_file_count info
       = length (List.filter (beneath (["proj"] ++ ["pkg"]))
                   (rglob env ["proj"]))
    /\ length (List.filter (beneath (["proj"] ++ ["pkg"]))
                 (_find_python_files env ["proj"]))
       <= python_file_count info.
Proof.
  intros env.
  apply (proj1 directory_counts_are_unfiltered env ["proj"] cached_entries
           "pkg" cached_pkg); try reflexivity.
  now left.
Defined.

(** ** Entry points *)

Lemma find_entry_points_from env root files acc :
  fold_left (fun entry_points py_file =>
               match read_text env py_file with
               | Some content =>
                   if text_in main_guard_double content
                      || text_in main_guard_single content
                   then
                     match relative_to py_file root with
                     | Some relative_path =>
                         entry_points ++
                         [{| ep_path := str_relative relative_path;
                             ep_type := "cli_entry";
                             ep_description :=
                               "Entry point in " +:+ path_name relative_path |}]
                     | None => entry_points
                     end
                   else entry_points
               | None => entry_points
               end) files acc
  = acc ++ map entry_for
             (omap (fun f => if guarded env f then relative_to f root else None)
                   files).
Proof.
  revert acc. induction files as [|f files IH]; intros acc; simpl.
  - now rewrite app_nil_r.
  - rewrite IH. unfold guarded, has_main_guard.
    destruct (read_text env f) as [content|]; [|reflexivity].
    destruct (text_in main_guard_double content
              || text_in main_guard_single content); [|reflexivity].
    destruct (relative_to f root); [|reflexivity].
    simpl. now rewrite <- app_assoc.
Qed.

Lemma find_entry_points_map env root files :
  _find_entry_points env files root
  = map entry_for
      (omap (fun f => if guarded env f then relative_to f root else None)
            files).
Proof. unfold _find_entry_points. now rewrite find_entry_points_from. Qed.

Lemma omap_cons {A B : Type} (f : A -> option B) x l :
  omap f (x :: l)
  = match f x with Some y => y :: omap f l | None => omap f l end.
Proof. reflexivity. Qed.

(** Below the root every collected path is the root followed by a relative
    path, so the entries are those of the guarded relative paths. *)
Lemma omap_guarded_under env path rels :
  omap (fun f => if guarded env f then relative_to f path else None)
       (map (app path) rels)
  = List.filter (fun rel => guarded env (path ++ rel)) rels.
Proof.
  induction rels as [|rel rels IH]; [reflexivity|].
  cbn [map List.filter]. rewrite omap_cons, relative_to_self_app, IH.
  now destruct (guarded env (path ++ rel)).
Qed.

Lemma entry_points_of_tree env path n :
  fs_get (fs_root env) path = Some n ->
  _find_python_files env path
  = map (app path)
      (List.filter (fun rel => negb (ignored (path ++ rel))) (rglob_rel n))
  /\ _find_entry_points env (_find_python_files env path) path
     = map entry_for
         (List.filter (fun rel => guarded env (path ++ rel))
            (List.filter (fun rel => negb (ignored (path ++ rel)))
               (rglob_rel n))).
Proof.
  intros Hn.
  assert (Hfiles : _find_python_files env path
                   = map (app path)
                       (List.filter (fun rel => negb (ignored (path ++ rel)))
                          (rglob_rel n))).
  { rewrite find_python_files_filter. unfold rglob. rewrite Hn.
    apply filter_map_app. }
  split; [assumption|].
  now rewrite find_entry_points_map, Hfiles, omap_guarded_under.
Qed.

(** *** Names without a slash make the printed path injective *)

Lemma slash_free_cons c s :
  slash_free (String c s) = true -> c <> "/"%char /\ slash_free s = true.
Proof.
  unfold slash_free. simpl. intros H. apply negb_true_iff in H.
  apply orb_false_elim in H as [Hc Hs]. split.
  - intros ->. discriminate.
  - now apply negb_true_iff.
Qed.

Lemma append_slash_inj a a' x x' :
  slash_free a = true -> slash_free a' = true ->
  a +:+ "/" +:+ x = a' +:+ "/" +:+ x' -> a = a' /\ x = x'.
Proof.
  revert a'. induction a as [|c a IH]; intros [|c' a'] Ha Ha' H; simpl in H.
  - injection H as H. now split.
  - injection H as Hc _. apply slash_free_cons in Ha' as [Hc' _].
    now symmetry in Hc.
  - injection H as Hc _. apply slash_free_cons in Ha as [Hc' _]. contradiction.
  - injection H as Hc H. apply slash_free_cons in Ha as [_ Ha].
    apply slash_free_cons in Ha' as [_ Ha'].
    destruct (IH a' Ha Ha' H) as [Ha0 Hx]. subst. now split.
Qed.

Lemma slash_free_no_slash a a' x :
  slash_free a = true -> a <> a' +:+ "/" +:+ x.
Proof.
  revert a'. induction a as [|c a IH]; intros [|c' a'] Ha H; simpl in H;
    try discriminate.
  - injection H as Hc _. apply slash_free_cons in Ha as [Hc' _]. contradiction.
  - injection H as Hc H. apply slash_free_cons in Ha as [_ Ha].
    now apply (IH a' Ha).
Qed.

Lemma str_join_slash_inj l1 l2 :
  l1 <> [] -> l2 <> [] ->
  forallb slash_free l1 = true -> forallb slash_free l2 = true ->
  str_join "/" l1 = str_join "/" l2 -> l1 = l2.
Proof.
  revert l2. induction l1 as [|s l1 IH]; intros l2 H1 H2 Hf1 Hf2 H;
    [contradiction|].
  destruct l2 as [|s' l2]; [contradiction|].
  simpl in Hf1, Hf2.
  apply andb_prop in Hf1 as [Hs Hf1]. apply andb_prop in Hf2 as [Hs' Hf2].
  destruct l1 as [|t l1], l2 as [|t' l2].
  - simpl in H. now subst.
  - exfalso. change (s = s' +:+ "/" +:+ str_join "/" (t' :: l2)) in H.
    now apply slash_free_no_slash in H.
  - exfalso. change (s +:+ "/" +:+ str_join "/" (t :: l1) = s') in H.
    symmetry in H. now apply slash_free_no_slash in H.
  - change (s +:+ "/" +:+ str_join "/" (t :: l1)
            = s' +:+ "/" +:+ str_join "/" (t' :: l2)) in H.
    apply append_slash_inj in H as [-> H]; try assumption.
    f_equal. apply IH; try assumption; discriminate.
Qed.

Lemma str_relative_inj l1 l2 :
  l1 <> [] -> l2 <> [] ->
  forallb slash_free l1 = true -> forallb slash_free l2 = true ->
  str_relative l1 = str_relative l2 -> l1 = l2.
Proof.
  intros H1 H2 Hf1 Hf2 H. apply str_join_slash_inj; try assumption.
  destruct l1; [contradiction|]. destruct l2; [contradiction|]. exact H.
Qed.

(** *** The walk of a well-formed tree yields each path once *)

Lemma glob_top_NoDup (keep : string * node -> bool) es :
  distinct (map fst es) = true ->
  List.NoDup (map (fun e : string * node => [fst e]) (List.filter keep es)).
Proof.
  induction es as [|[nm n] es IH]; intros Hd; [constructor|].
  change (distinct (nm :: map fst es) = true) in Hd.
  apply distinct_cons in Hd as [Hfresh Hd]. simpl.
  destruct (keep (nm, n)); [|now apply IH]. simpl.
  constructor; [|now apply IH].
  intros Hin. apply in_map_iff in Hin as [e [Heq He]].
  apply filter_In in He as [He _]. injection Heq as Heq.
  apply Hfresh. apply in_map_iff. now exists e.
Qed.

Lemma glob_deep_head es rel :
  In rel (flat_map (fun '(nm, c) => map (cons nm) (rglob_rel c)) es) ->
  exists nm c r, In (nm, c) es /\ In r (rglob_rel c) /\ rel = nm :: r.
Proof.
  intros Hin. apply in_flat_map in Hin as [[nm c] [He Hin]].
  apply in_map_iff in Hin as [r [<- Hr]]. now exists nm, c, r.
Qed.

Lemma glob_deep_NoDup es :
  distinct (map fst es) = true ->
  Forall (fun e => List.NoDup (rglob_rel (snd e))) es ->
  List.NoDup (flat_map (fun '(nm, c) => map (cons nm) (rglob_rel c)) es).
Proof.
  induction es as [|[nm n] es IH]; intros Hd Hall; [constructor|].
  change (distinct (nm :: map fst es) = true) in Hd.
  apply distinct_cons in Hd as [Hfresh Hd].
  apply Forall_cons in Hall as [Hn Hall]. simpl in Hn.
  change (List.NoDup (map (cons nm) (rglob_rel n)
                      ++ flat_map (fun '(nm, c) => map (cons nm) (rglob_rel c)) es)).
  apply List.NoDup_app.
  - apply List.NoDup_map_NoDup_ForallPairs; [|assumption].
    intros x y _ _ Heq. now injection Heq.
  - now apply IH.
  - intros rel Hin Hin'.
    apply in_map_iff in Hin as [r [<- _]].
    apply glob_deep_head in Hin' as [nm' [c [r' [He [_ Heq]]]]].
    injection Heq as -> _. apply Hfresh. apply in_map_iff. now exists (nm', c).
Qed.

Lemma rglob_rel_well_formed n :
  well_formed n = true ->
  List.NoDup (rglob_rel n)
  /\ (forall rel, In rel (rglob_rel n) -> forallb slash_free rel = true).
Proof.
  induction n as [content|listable es IH] using node_ind; intros Hwf.
  - split; [constructor|intros rel []].
  - destruct listable; [|split; [constructor|intros rel []]].
    simpl in Hwf. apply andb_prop in Hwf as [Hwf Hsub].
    apply andb_prop in Hwf as [Hd Hnames].
    assert (Hchildren : Forall (fun e => well_formed (snd e) = true) es).
    { apply Forall_forall. intros [nm c] Hin. apply list_elem_of_In in Hin.
      rewrite forallb_forall in Hsub. exact (Hsub (nm, c) Hin). }
    assert (Heach : Forall (fun e =>
                      List.NoDup (rglob_rel (snd e))
                      /\ (forall rel, In rel (rglob_rel (snd e)) ->
                                      forallb slash_free rel = true)) es).
    { rewrite Forall_forall in *. intros e He. apply IH; auto. }
    rewrite rglob_rel_dir. split.
    + apply List.NoDup_app.
      * now apply glob_top_NoDup.
      * apply glob_deep_NoDup; [assumption|].
        rewrite Forall_forall in *. intros e He. now apply Heach.
      * intros rel Hin Hin'.
        apply in_map_iff in Hin as [e [<- _]].
        apply glob_deep_head in Hin' as [nm [c [r [_ [Hr Heq]]]]].
        injection Heq as _ <-. now apply rglob_rel_nonempty in Hr.
    + intros rel Hin. apply in_app_or in Hin as [Hin|Hin].
      * apply in_map_iff in Hin as [e [<- He]].
        apply filter_In in He as [He _]. simpl.
        rewrite forallb_forall in Hnames. now rewrite (Hnames e He).
      * apply glob_deep_head in Hin as [nm [c [r [He [Hr ->]]]]].
        rewrite forallb_forall in Hnames. pose proof (Hnames (nm, c) He) as Hnm.
        simpl in Hnm. simpl. rewrite Hnm. simpl.
        rewrite Forall_forall in Heach. apply list_elem_of_In in He.
        now apply (Heach (nm, c) He).
Qed.

Lemma count_one_of_NoDup {A : Type} (key : A -> string) (l : list A) x :
  List.NoDup l ->
  In x l ->
  (forall y, In y l -> key y = key x -> y = x) ->
  length (List.filter (fun y => String.eqb (key y) (key x)) l) = 1.
Proof.
  induction l as [|z l IH]; intros Hnd Hin Hinj; [destruct Hin|].
  apply List.NoDup_cons_iff in Hnd as [Hz Hnd]. simpl.
  destruct Hin as [->|Hin].
  - rewrite String.eqb_refl. simpl. f_equal.
    rewrite filter_all_false; [reflexivity|].
    intros y Hy. apply String.eqb_neq. intros Heq.
    apply Hinj in Heq; [|now right]. now subst.
  - destruct (String.eqb (key z) (key x)) eqn:E.
    + apply String.eqb_eq in E. apply Hinj in E; [|now left]. now subst.
    + apply IH; auto. intros y Hy. apply Hinj. now right.
Qed.

(** C4. In a well-formed tree, a collected file that can be read and whose
    text holds the main guard, with double or with single quotes (or both),
    has exactly one entry in [entry_points]: its [path] is the file's path
    relative to the scanned root, its [type] is [cli_entry] and its
    [description] names the file's base name. *)
Theorem main_guard_file_listed_once env path project n f content :
  fs_get (fs_root env) path = Some n ->
  well_formed n = true ->
  In f (_find_python_files env path) ->
  read_text env f = Some content ->
  text_in main_guard_double content = true
  \/ text_in main_guard_single content = true ->
  exists rel,
    f = path ++ rel
    /\ relative_to f path = Some rel
    /\ In {| ep_path := str_relative rel;
             ep_type := "cli_entry";
             ep_description := "Entry point in " +:+ path_name rel |}
          (entry_points (build_analysis env path project))
    /\ entries_with_path (str_relative rel)
         (entry_points (build_analysis env path project)) = 1.
Proof.
  intros Hn Hwf Hf Hread Hguard.
  destruct (entry_points_of_tree env path n Hn) as [Hfiles Heps].
  change (entry_points (build_analysis env path project))
    with (_find_entry_points env (_find_python_files env path) path).
  rewrite Heps. rewrite Hfiles in Hf.
  apply in_map_iff in Hf as [rel [<- Hrel]].
  exists rel. split; [reflexivity|]. split; [apply relative_to_self_app|].
  set (kept := List.filter (fun rel => guarded env (path ++ rel))
                 (List.filter (fun rel => negb (ignored (path ++ rel)))
                    (rglob_rel n))).
  assert (Hkept : In rel kept).
  { apply filter_In. split; [assumption|].
    unfold guarded, has_main_guard. rewrite Hread.
    destruct Hguard as [-> | ->]; [reflexivity|apply orb_true_r]. }
  assert (Hsub : forall r, In r kept -> In r (rglob_rel n)).
  { intros r Hr. apply filter_In in Hr as [Hr _].
    now apply filter_In in Hr as [Hr _]. }
  destruct (rglob_rel_well_formed n Hwf) as [Hnd Hsf].
  split.
  - apply in_map_iff. now exists rel.
  - unfold entries_with_path. rewrite filter_map_swap, length_map.
    apply (count_one_of_NoDup str_relative kept rel).
    + now do 2 apply List.NoDup_filter.
    + assumption.
    + intros r Hr Heq.
      apply str_relative_inj.
      * apply (rglob_rel_nonempty n). auto.
      * apply (rglob_rel_nonempty n). auto.
      * auto.
      * auto.
      * exact Heq.
Qed.

Lemma main_guard_file_listed_once_witness :
  let env := example_env scenario_fs in
  exists rel,
    ["home"; "proj"; "app.py"] = ["home"; "proj"] ++ rel
    /\ relative_to ["home"; "proj"; "app.py"] ["home"; "proj"] = Some rel
    /\ In {| ep_path := str_relative rel;
             ep_type := "cli_entry";
             ep_description := "Entry point in " +:+ path_name rel |}
          (entry_points (build_analysis env ["home"; "proj"] None))
    /\ entries_with_path (str_relative rel)
         (entry_points (build_analysis env ["home"; "proj"] None)) = 1.
Proof.
  intros env.
  apply (main_guard_file_listed_once env ["home"; "proj"] None scenario_dir
           ["home"; "proj"; "app.py"] app_py).
  - reflexivity.
  - reflexivity.
  - vm_compute. now left.
  - reflexivity.
  - left. reflexivity.
Defined.

(** ** The scenario: [app.py] next to [lib/utils.py] *)

Lemma build_analysis_fields env path project :
  total_files (build_analysis env path project)
  = length (_find_python_files env path)
  /\ total_lines (build_analysis env path project)
     = _count_lines env (_find_python_files env path)
  /\ entry_points (build_analysis env path project)
     = _find_entry_points env (_find_python_files env path) path
  /\ directory_structure (build_analysis env path project)
     = _analyze_structure env path.
Proof. repeat split. Qed.

Lemma not_ignored_below path rel :
  (forall seg, In seg path -> ~ In seg ignore_patterns) ->
  (forall seg, In seg rel -> ~ In seg ignore_patterns) ->
  ignored (path ++ rel) = false.
Proof.
  intros Hpath Hrel. destruct (ignored (path ++ rel)) eqn:E; [|reflexivity].
  apply ignored_true_iff in E as [seg [Hseg Hpat]]. exfalso.
  destruct Hseg as [<-|Hseg].
  - unfold ignore_patterns in Hpat. simpl in Hpat.
    repeat (destruct Hpat as [Hpat|Hpat]; [discriminate Hpat|]). destruct Hpat.
  - apply in_app_or in Hseg as [Hseg|Hseg].
    + now apply (Hpath seg).
    + now apply (Hrel seg).
Qed.

Lemma read_text_below env path n rel :
  fs_get (fs_root env) path = Some n ->
  read_text env (path ++ rel)
  = match fs_get n rel with Some (File content) => content | _ => None end.
Proof. intros Hn. unfold read_text. now rewrite fs_get_app, Hn. Qed.

Ltac not_a_pattern :=
  let seg := fresh "seg" in
  let H := fresh in
  let Hpat := fresh in
  intros seg H Hpat; simpl in H;
  repeat (destruct H as [H|H]; [subst seg|]); try destruct H;
  unfold ignore_patterns in Hpat; simpl in Hpat;
  repeat (destruct Hpat as [Hpat|Hpat]; [discriminate Hpat|]); destruct Hpat.

Lemma scenario_files env path es app utils :
  (forall seg, In seg path -> ~ In seg ignore_patterns) ->
  fs_get (fs_root env) path = Some (Dir true es) ->
  es = scenario_entries app utils \/ es = rev (scenario_entries app utils) ->
  _find_python_files env path
  = [path ++ ["app.py"]; path ++ ["lib"; "utils.py"]].
Proof.
  intros Hpath Hn Hes. rewrite find_python_files_filter. unfold rglob.
  rewrite Hn.
  assert (Hglob : rglob_rel (Dir true es) = [["app.py"]; ["lib"; "utils.py"]]).
  { destruct Hes as [-> | ->]; reflexivity. }
  rewrite Hglob. cbn [map List.filter].
  rewrite !not_ignored_below; try assumption; try not_a_pattern.
  reflexivity.
Qed.

Lemma scenario_reads env path es app utils :
  fs_get (fs_root env) path = Some (Dir true es) ->
  es = scenario_entries app utils \/ es = rev (scenario_entries app utils) ->
  read_text env (path ++ ["app.py"]) = Some app
  /\ read_text env (path ++ ["lib"; "utils.py"]) = Some utils.
Proof.
  intros Hn Hes.
  rewrite !(read_text_below env path (Dir true es)) by assumption.
  destruct Hes as [-> | ->]; split; reflexivity.
Qed.

Lemma scenario_structure env path es app utils :
  fs_get (fs_root env) path = Some (Dir true es) ->
  es = scenario_entries app utils \/ es = rev (scenario_entries app utils) ->
  _analyze_structure env path
  = {[ "lib" := {| dir_type := "directory"; python_file_count := 1 |} ]}.
Proof.
  intros Hn Hes. rewrite analyze_structure_fold. unfold iterdir. rewrite Hn.
  destruct Hes as [-> | ->]; cbn [fold_left scenario_entries rev List.app];
    unfold structure_step; simpl; apply insert_empty.
Qed.

(** C1, as the code has it. For a root directory that holds exactly
    [app.py] (3 lines, with the main guard) and [lib/] with [utils.py]
    (5 lines, no guard), in either listing order, and whose own absolute
    path has no segment of the ignore-set, the analysis [analyze_codebase]
    assembles and hands to the store has [total_files] 2, [total_lines] 8,
    one entry point, of path [app.py], and a [directory_structure] with the
    single key [lib], of type [directory] and count 1. *)
Theorem scenario_analysis env store p project es app utils :
  let path := resolve env p in
  (forall seg, In seg path -> ~ In seg ignore_patterns) ->
  fs_get (fs_root env) path = Some (Dir true es) ->
  es = scenario_entries app utils \/ es = rev (scenario_entries app utils) ->
  line_count app = 3 ->
  has_main_guard app = true ->
  line_count utils = 5 ->
  has_main_guard utils = false ->
  let a := build_analysis env path project in
  snd (analyze_codebase env store p project) = [Insert a]
  /\ total_files a = 2
  /\ total_lines a = 8
  /\ entry_points a
     = [{| ep_path := "app.py";
           ep_type := "cli_entry";
           ep_description := "Entry point in app.py" |}]
  /\ directory_structure a
     = {[ "lib" := {| dir_type := "directory"; python_file_count := 1 |} ]}.
Proof.
  intros path Hpath Hn Hes Happ Hguard Hutils Hplain a.
  assert (Hdir : path_is_dir env (resolve env p) = true).
  { unfold path_is_dir. fold path. now rewrite Hn. }
  destruct (analyze_codebase_scans env store p project Hdir) as [Hcalls _].
  destruct (build_analysis_fields env path project) as [Hf [Hl [He Hs]]].
  pose proof (scenario_files env path es app utils Hpath Hn Hes) as Hfiles.
  destruct (scenario_reads env path es app utils Hn Hes) as [Hra Hru].
  split; [exact Hcalls|].
  subst a. rewrite Hf, Hl, He, Hs, Hfiles.
  split; [reflexivity|]. split; [|split].
  - unfold _count_lines. simpl. rewrite Hra, Hru.
    unfold line_count in Happ, Hutils. now rewrite Happ, Hutils.
  - rewrite find_entry_points_map, !omap_cons. unfold guarded.
    rewrite Hra, Hru, Hguard, Hplain.
    now rewrite (relative_to_self_app path ["app.py"]).
  - now apply (scenario_structure env path es app utils).
Qed.

Lemma scenario_analysis_witness :
  let env := example_env scenario_fs in
  let a := build_analysis env ["home"; "proj"] None in
  snd (analyze_codebase env (echo_store "row-1") "/home/proj" None)
  = [Insert a]
  /\ total_files a = 2
  /\ total_lines a = 8
  /\ entry_points a
     = [{| ep_path := "app.py";
           ep_type := "cli_entry";
           ep_description := "Entry point in app.py" |}]
  /\ directory_structure a
     = {[ "lib" := {| dir_type := "directory"; python_file_count := 1 |} ]}.
Proof.
  intros env.
  apply (scenario_analysis env (echo_store "row-1") "/home/proj" None
           (scenario_entries app_py utils_py) app_py utils_py).
  - not_a_pattern.
  - reflexivity.
  - now left.
  - reflexivity.
  - reflexivity.
  - reflexivity.
  - reflexivity.
Defined.

(** Against C1 as stated: the scenario checked out below a directory named
    [build] has the same root content, and the analysis reports no file. *)
Lemma scenario_under_build_reports_no_file :
  let env := example_env scenario_fs in
  let a := build_analysis env ["build"; "proj"] None in
  resolve env "/build/proj" = ["build"; "proj"]
  /\ fs_get (fs_root env) ["build"; "proj"]
     = Some (Dir true (scenario_entries app_py utils_py))
  /\ line_count app_py = 3 /\ has_main_guard app_py = true
  /\ line_count utils_py = 5 /\ has_main_guard utils_py = false
  /\ analyze_codebase env silent_store "/build/proj" None
     = (Ok {| row_id := None; row_analysis := a |}, [Insert a])
  /\ total_files a = 0
  /\ total_lines a = 0
  /\ entry_points a = [].
Proof. repeat split. Qed.

(** * Further properties of the scan *)

(** ** What the collector returns *)

Lemma find_entry_In k es c : find_entry k es = Some c -> In (k, c) es.
Proof.
  induction es as [|[nm n] es IH]; simpl; [discriminate|].
  destruct (String.eqb nm k) eqn:E.
  - apply String.eqb_eq in E. intros [= ->]. subst. now left.
  - intros H. right. now apply IH.
Qed.

Lemma well_formed_entry listable es k c :
  well_formed (Dir listable es) = true -> In (k, c) es ->
  distinct (map fst es) = true /\ well_formed c = true.
Proof.
  simpl. intros Hwf Hin. apply andb_prop in Hwf as [Hwf Hsub].
  apply andb_prop in Hwf as [Hd _]. split; [assumption|].
  rewrite forallb_forall in Hsub. exact (Hsub (k, c) Hin).
Qed.

Lemma last_cons_nonempty (x : string) l :
  l <> [] -> List.last (x :: l) EmptyString = List.last l EmptyString.
Proof. destruct l; [contradiction|reflexivity]. Qed.

Lemma walkable_glob n rel :
  rel <> [] -> walkable n rel = true ->
  matches_py (path_name rel) = true ->
  In rel (rglob_rel n).
Proof.
  revert n. induction rel as [|seg rest IH]; intros n Hne Hwalk Hpy;
    [contradiction|].
  simpl in Hwalk. destruct n as [content|[|] es]; try discriminate.
  destruct (find_entry seg es) as [c|] eqn:Hc; [|discriminate].
  apply find_entry_In in Hc. rewrite rglob_rel_dir. apply in_or_app.
  destruct rest as [|seg' rest'].
  - left. apply in_map_iff. exists (seg, c). split; [reflexivity|].
    apply filter_In. split; [assumption|exact Hpy].
  - right. apply in_flat_map. exists (seg, c). split; [assumption|].
    apply in_map_iff. exists (seg' :: rest'). split; [reflexivity|].
    apply IH; [discriminate|assumption|].
    unfold path_name in *. now rewrite last_cons_nonempty in Hpy.
Qed.

Lemma glob_walkable n rel :
  well_formed n = true -> In rel (rglob_rel n) ->
  rel <> [] /\ walkable n rel = true /\ matches_py (path_name rel) = true.
Proof.
  revert rel. induction n as [content|listable es IH] using node_ind;
    intros rel Hwf Hin; [destruct Hin|].
  destruct listable; [|destruct Hin].
  rewrite rglob_rel_dir in Hin. apply in_app_or in Hin as [Hin|Hin].
  - apply in_map_iff in Hin as [[nm c] [<- He]].
    apply filter_In in He as [He Hpy]. simpl in Hpy.
    destruct (well_formed_entry true es nm c Hwf He) as [Hd _].
    split; [discriminate|]. split; [|exact Hpy].
    simpl. now rewrite (find_entry_distinct es nm c Hd He).
  - apply glob_deep_head in Hin as [nm [c [r [He [Hr ->]]]]].
    destruct (well_formed_entry true es nm c Hwf He) as [Hd Hc].
    rewrite Forall_forall in IH. pose proof He as He'.
    apply list_elem_of_In in He'.
    destruct (IH (nm, c) He' r Hc Hr) as [Hne [Hwalk Hpy]].
    split; [discriminate|]. split.
    + simpl. rewrite (find_entry_distinct es nm c Hd He).
      destruct r; [contradiction|assumption].
    + unfold path_name in *. now rewrite last_cons_nonempty.
Qed.

(** X1. In a well-formed tree the collected files are exactly the paths
    strictly below the root that a walk through listable directories
    reaches, whose last name ends in [.py], and none of whose absolute
    parts is in the ignore-set. *)
Theorem collected_files_characterised env path n f :
  fs_get (fs_root env) path = Some n ->
  well_formed n = true ->
  In f (_find_python_files env path)
  <-> exists rel,
        f = path ++ rel /\ rel <> [] /\ walkable n rel = true
        /\ matches_py (path_name rel) = true
        /\ ignored f = false.
Proof.
  intros Hn Hwf. rewrite find_python_files_filter, filter_In.
  unfold rglob. rewrite Hn. split.
  - intros [Hin Hkeep]. apply in_map_iff in Hin as [rel [<- Hrel]].
    exists rel. destruct (glob_walkable n rel Hwf Hrel) as [Hne [Hw Hpy]].
    repeat split; try assumption. now apply negb_true_iff.
  - intros [rel [-> [Hne [Hw [Hpy Hig]]]]]. split.
    + apply in_map_iff. exists rel. split; [reflexivity|].
      now apply walkable_glob.
    + now rewrite Hig.
Qed.

Lemma collected_files_characterised_witness :
  let env := example_env cached_fs in
  In ["proj"; "pkg"; "mod.py"] (_find_python_files env ["proj"])
  <-> exists rel,
        ["proj"; "pkg"; "mod.py"] = ["proj"] ++ rel /\ rel <> []
        /\ walkable (Dir true cached_entries) rel = true
        /\ matches_py (path_name rel) = true
        /\ ignored ["proj"; "pkg"; "mod.py"] = false.
Proof.
  intros env.
  apply (collected_files_characterised env ["proj"] (Dir true cached_entries));
    reflexivity.
Defined.

(** ** Entry points against collected files *)

(** X2. The entry points are the entries of the collected files that can be
    read and hold the main guard, in collection order; so there are never
    more entry points than files, and every entry has the type
    [cli_entry]. A root that is missing gives no file and no entry. *)
Theorem entry_points_follow_collection env path project :
  let a := build_analysis env path project in
  (exists rels,
     _find_python_files env path = map (app path) rels
     /\ entry_points a
        = map entry_for
            (List.filter (fun rel => guarded env (path ++ rel)) rels))
  /\ length (entry_points a) <= total_files a
  /\ (forall e, In e (entry_points a) -> ep_type e = "cli_entry")
  /\ (fs_get (fs_root env) path = None ->
      total_files a = 0 /\ entry_points a = []).
Proof.
  intros a.
  assert (Hshape : exists rels,
             _find_python_files env path = map (app path) rels
             /\ entry_points a
                = map entry_for
                    (List.filter (fun rel => guarded env (path ++ rel)) rels)).
  { destruct (fs_get (fs_root env) path) as [n|] eqn:Hn.
    - destruct (entry_points_of_tree env path n Hn) as [Hfiles Heps].
      eexists. split; [exact Hfiles|exact Heps].
    - exists []. subst a.
      destruct (build_analysis_fields env path project) as [_ [_ [He _]]].
      rewrite He, find_python_files_filter. unfold rglob. rewrite Hn.
      split; reflexivity. }
  split; [exact Hshape|].
  destruct Hshape as [rels [Hfiles Heps]].
  destruct (build_analysis_fields env path project) as [Hf _].
  fold a in Hf. split; [|split].
  - rewrite Hf, Hfiles, Heps, !length_map. apply List.filter_length_le.
  - rewrite Heps. intros e He.
    apply in_map_iff in He as [rel [<- _]]. reflexivity.
  - intros Hmissing.
    assert (Hnone : _find_python_files env path = []).
    { rewrite find_python_files_filter. unfold rglob. now rewrite Hmissing. }
    destruct (no_files_no_results env path project Hnone) as [H0 [_ He]].
    now split.
Qed.

(** X3. In a well-formed tree, the number of entries that carry the
    relative path of a collected file is 1 when the file can be read and
    holds the main guard, and 0 otherwise. *)
Theorem entry_count_of_collected_file env path project n rel :
  fs_get (fs_root env) path = Some n ->
  well_formed n = true ->
  In (path ++ rel) (_find_python_files env path) ->
  entries_with_path (str_relative rel)
    (entry_points (build_analysis env path project))
  = if guarded env (path ++ rel) then 1 else 0.
Proof.
  intros Hn Hwf Hf.
  destruct (entry_points_of_tree env path n Hn) as [Hfiles Heps].
  change (entry_points (build_analysis env path project))
    with (_find_entry_points env (_find_python_files env path) path).
  rewrite Heps. rewrite Hfiles in Hf.
  apply in_map_iff in Hf as [rel' [Heq Hrel]].
  apply app_inv_head in Heq. subst rel'.
  set (collected := List.filter (fun rel => negb (ignored (path ++ rel)))
                      (rglob_rel n)) in *.
  destruct (rglob_rel_well_formed n Hwf) as [Hnd Hsf].
  assert (Hsub : forall r, In r collected -> In r (rglob_rel n)).
  { intros r Hr. now apply filter_In in Hr as [Hr _]. }
  assert (Hinj : forall r, In r collected ->
                           str_relative r = str_relative rel -> r = rel).
  { intros r Hr Heq. apply str_relative_inj.
    - apply (rglob_rel_nonempty n). auto.
    - apply (rglob_rel_nonempty n). auto.
    - auto.
    - auto.
    - exact Heq. }
  unfold entries_with_path. rewrite filter_map_swap, length_map.
  destruct (guarded env (path ++ rel)) eqn:Hg.
  - apply (count_one_of_NoDup str_relative).
    + now do 2 apply List.NoDup_filter.
    + apply filter_In. now split.
    + intros r Hr. apply Hinj. now apply filter_In in Hr as [Hr _].
  - rewrite filter_all_false; [reflexivity|].
    intros r Hr. apply filter_In in Hr as [Hr Hgr].
    apply String.eqb_neq. intros Heq. apply Hinj in Heq; [|assumption].
    subst r. congruence.
Qed.

Lemma entry_count_of_collected_file_witness :
  let env := example_env scenario_fs in
  entries_with_path (str_relative ["lib"; "utils.py"])
    (entry_points (build_analysis env ["home"; "proj"] None))
  = if guarded env (["home"; "proj"] ++ ["lib"; "utils.py"]) then 1 else 0.
Proof.
  intros env.
  apply (entry_count_of_collected_file env ["home"; "proj"] None scenario_dir
           ["lib"; "utils.py"]).
  - reflexivity.
  - reflexivity.
  - vm_compute. right. now left.
Defined.

(** ** The size of the directory structure *)

Lemma structure_fold_size items (acc : gmap string DirInfo) :
  distinct (map fst items) = true ->
  (forall k, In k (map fst items) -> acc !! k = None) ->
  size (fold_left structure_step items acc)
  = size acc + length (List.filter visible_dir items).
Proof.
  revert acc. induction items as [|[nm n] items IH]; intros acc Hd Hfresh.
  - simpl. lia.
  - change (distinct (nm :: map fst items) = true) in Hd.
    apply distinct_cons in Hd as [Hnm Hd].
    cbn [fold_left List.filter].
    unfold structure_step at 2, visible_dir at 1, hidden. cbn [fst snd].
    destruct (is_dir n && negb (str_startswith nm ".")).
    + rewrite IH; [|assumption|].
      * rewrite map_size_insert_None by (apply Hfresh; now left).
        simpl. lia.
      * intros k Hk. rewrite lookup_insert_ne.
        -- apply Hfresh. now right.
        -- intros ->. contradiction.
    + apply IH; [assumption|]. intros k Hk. apply Hfresh. now right.
Qed.

(** X4. A root that is missing, is a file, or cannot be listed gives the
    empty structure: the error is swallowed. For a root that can be listed,
    with one entry per name, the structure has one key per child that is a
    directory with a name not starting with a dot: the number of keys is
    the number of such children, whatever the children contain. *)
Theorem directory_structure_size env path :
  (iterdir env path = None -> _analyze_structure env path = ∅)
  /\ (forall es,
        fs_get (fs_root env) path = Some (Dir true es) ->
        distinct (map fst es) = true ->
        size (_analyze_structure env path)
        = length (List.filter visible_dir es)
        /\ (forall k,
              is_Some (_analyze_structure env path !! k)
              <-> exists c, In (k, c) es /\ visible_dir (k, c) = true)).
Proof.
  split.
  - intros Hnone. rewrite analyze_structure_fold. now rewrite Hnone.
  - intros es Hn Hd. rewrite analyze_structure_fold. unfold iterdir.
    rewrite Hn. split.
    + rewrite structure_fold_size; [|assumption|].
      * now rewrite map_size_empty.
      * intros k _. apply lookup_empty.
    + intros k. split.
      * intros [info Hk].
        apply structure_fold_key in Hk as [Hk|[c [Hin [Hdir [Hvis _]]]]].
        -- rewrite lookup_empty in Hk. discriminate.
        -- exists c. split; [assumption|].
           unfold visible_dir. simpl. now rewrite Hdir, Hvis.
      * intros [c [Hin Hvis]].
        rewrite (structure_fold_entry es ∅ k c Hd Hin).
        unfold visible_dir in Hvis. simpl in Hvis. rewrite Hvis. eauto.
Qed.

Lemma directory_structure_size_witness :
  let env := example_env cached_fs in
  _analyze_structure env ["proj"; "README"] = ∅
  /\ size (_analyze_structure env ["proj"]) = 1.
Proof.
  intros env. split.
  - apply (proj1 (directory_structure_size env ["proj"; "README"])).
    reflexivity.
  - apply (proj2 (directory_structure_size env ["proj"]) cached_entries);
      reflexivity.
Defined.

(** ** Detection of the technology stack *)

Lemma in_append_if_iff cond tag l x :
  In x (append_if cond tag l) <-> In x l \/ (cond = true /\ x = tag).
Proof.
  unfold append_if. destruct cond.
  - rewrite in_app_iff. simpl. intuition.
  - intuition discriminate.
Qed.

Ltac tag_membership :=
  repeat rewrite in_append_if_iff; rewrite ?orb_true_iff; simpl;
  intuition (try discriminate; try congruence).

(** X5. A tag is in its bucket exactly when its keyword occurs in the
    lower-cased text of its manifest (which must exist and be readable):
    [fastapi], [flask], [django] for the frameworks; [postgresql] or
    [psycopg], [chromadb], [sqlite] for the databases; [pytest] in
    [requirements.txt] and [poetry], [uv] in [pyproject.toml] for the
    tools; and [Docker] exactly when [Dockerfile] or [docker-compose.yml]
    exists. *)
Theorem tech_stack_detection env path :
  let ts := _detect_tech_stack env path in
  let req := manifest_has env path "requirements.txt" in
  let pyp := manifest_has env path "pyproject.toml" in
  (In "FastAPI" (frameworks ts) <-> req "fastapi" = true)
  /\ (In "Flask" (frameworks ts) <-> req "flask" = true)
  /\ (In "Django" (frameworks ts) <-> req "django" = true)
  /\ (In "PostgreSQL" (databases ts)
      <-> req "postgresql" = true \/ req "psycopg" = true)
  /\ (In "ChromaDB" (databases ts) <-> req "chromadb" = true)
  /\ (In "SQLite" (databases ts) <-> req "sqlite" = true)
  /\ (In "pytest" (tools ts) <-> req "pytest" = true)
  /\ (In "Poetry" (tools ts) <-> pyp "poetry" = true)
  /\ (In "uv" (tools ts) <-> pyp "uv" = true)
  /\ (In "Docker" (tools ts)
      <-> path_exists env (path ++ ["Dockerfile"]) = true
          \/ path_exists env (path ++ ["docker-compose.yml"]) = true).
Proof.
  intros ts req pyp. subst ts. rewrite detect_tech_stack_shape.
  fold req pyp. cbn [frameworks databases tools].
  repeat split; tag_membership.
Qed.




(** ** The summary sentence *)

Lemma strip_commas_app l1 l2 :
  strip_commas (l1 ++ l2) = strip_commas l1 ++ strip_commas l2.
Proof.
  induction l1 as [|c l1 IH]; simpl; [reflexivity|].
  destruct (Ascii.eqb c ","); simpl; now rewrite IH.
Qed.

Lemma strip_commas_rev l : strip_commas (rev l) = rev (strip_commas l).
Proof.
  induction l as [|c l IH]; simpl; [reflexivity|].
  rewrite strip_commas_app, IH. simpl.
  destruct (Ascii.eqb c ","); simpl; [now rewrite app_nil_r|reflexivity].
Qed.

Lemma strip_commas_digits l :
  forallb is_digit l = true -> strip_commas l = l.
Proof.
  induction l as [|c l IH]; simpl; intros H; [reflexivity|].
  apply andb_prop in H as [Hc Hl]. rewrite IH by assumption.
  destruct (Ascii.eqb c ",") eqn:E; [|reflexivity].
  apply Ascii.eqb_eq in E. subst c. discriminate.
Qed.

Lemma group_thousands_step k d d' l :
  group_thousands k (d :: d' :: l)
  = if Nat.eqb k 2 then d :: ","%char :: group_thousands 0 (d' :: l)
    else d :: group_thousands (S k) (d' :: l).
Proof. reflexivity. Qed.

Lemma strip_commas_keep d l :
  Ascii.eqb d "," = false -> strip_commas (d :: l) = d :: strip_commas l.
Proof. intros H. simpl. now rewrite H. Qed.

Lemma strip_commas_comma l : strip_commas (","%char :: l) = strip_commas l.
Proof. reflexivity. Qed.

Lemma strip_commas_group k l :
  forallb is_digit l = true -> strip_commas (group_thousands k l) = l.
Proof.
  revert k. induction l as [|d l IH]; intros k H; [reflexivity|].
  simpl in H. apply andb_prop in H as [Hd Hl].
  assert (Hkeep : Ascii.eqb d "," = false).
  { destruct (Ascii.eqb d ",") eqn:E; [|reflexivity].
    apply Ascii.eqb_eq in E. subst d. discriminate. }
  destruct l as [|d' l'].
  - simpl. now rewrite Hkeep.
  - rewrite group_thousands_step.
    destruct (Nat.eqb k 2); rewrite strip_commas_keep by assumption;
      rewrite ?strip_commas_comma; f_equal; now apply IH.
Qed.

Lemma pretty_N_char_digit x : is_digit (pretty_N_char x) = true.
Proof.
  unfold pretty_N_char.
  repeat (match goal with |- context [match ?y with _ => _ end] =>
                            destruct y end; try reflexivity).
Qed.

Lemma pretty_N_go_digits x s :
  forallb is_digit (list_ascii_of_string s) = true ->
  forallb is_digit (list_ascii_of_string (pretty_N_go x s)) = true.
Proof.
  revert s. induction (N.lt_wf_0 x) as [x _ IH]. intros s Hs.
  assert (x = 0 \/ 0 < x)%N as [->|Hpos] by lia.
  - now rewrite pretty_N_go_0.
  - rewrite pretty_N_go_step by assumption. apply IH.
    + now apply N.div_lt.
    + simpl. now rewrite pretty_N_char_digit.
Qed.

Lemma pretty_nat_digits (n : nat) :
  forallb is_digit (list_ascii_of_string (pretty n)) = true.
Proof.
  unfold pretty, pretty_nat, pretty, pretty_N.
  destruct (decide (N.of_nat n = 0%N)); [reflexivity|].
  now apply pretty_N_go_digits.
Qed.

(** X7. The thousands separators of the line count only group the digits:
    without its commas the formatted number is the plain decimal number, so
    different line counts are formatted differently. *)
Theorem format_thousands_keeps_digits :
  (forall n,
     strip_commas (list_ascii_of_string (format_thousands n))
     = list_ascii_of_string (pretty n))
  /\ (forall n m, format_thousands n = format_thousands m -> n = m).
Proof.
  assert (Hstrip : forall n,
             strip_commas (list_ascii_of_string (format_thousands n))
             = list_ascii_of_string (pretty n)).
  { intros n. unfold format_thousands.
    rewrite list_ascii_of_string_of_list_ascii, strip_commas_rev.
    rewrite strip_commas_group.
    - apply rev_involutive.
    - rewrite forallb_forall. intros c Hc. apply in_rev in Hc.
      pose proof (pretty_nat_digits n) as Hd.
      rewrite forallb_forall in Hd. now apply Hd. }
  split; [exact Hstrip|].
  intros n m Heq. apply (inj pretty).
  rewrite <- (string_of_list_ascii_of_string (pretty n)).
  rewrite <- (string_of_list_ascii_of_string (pretty m)).
  now rewrite <- !Hstrip, Heq.
Qed.

Lemma format_thousands_keeps_digits_witness :
  strip_commas (list_ascii_of_string (format_thousands 4321))
  = list_ascii_of_string (pretty 4321)
  /\ (format_thousands 4321 = format_thousands 4321 -> 4321 = 4321).
Proof.
  split.
  - apply (proj1 format_thousands_keeps_digits).
  - apply (proj2 format_thousands_keeps_digits).
Defined.

Lemma str_append_assoc (a b c : string) : (a +:+ b) +:+ c = a +:+ b +:+ c.
Proof.
  induction a as [|x a IH]; [reflexivity|].
  change (String x ((a +:+ b) +:+ c) = String x (a +:+ b +:+ c)). now f_equal.
Qed.

(** X8. The summary is a function of six quantities only: the file and
    line counts, the framework and database tags, the number of entry
    points and the number of top-level directories. The tools, the paths of
    the entry points, the names of the directories, the project and the
    timestamp never show in it. With nothing detected it is the statistics
    sentence alone. *)
Theorem summary_depends_on_counts :
  (forall a b,
     total_files a = total_files b ->
     total_lines a = total_lines b ->
     frameworks (tech_stack a) = frameworks (tech_stack b) ->
     databases (tech_stack a) = databases (tech_stack b) ->
     length (entry_points a) = length (entry_points b) ->
     size (directory_structure a) = size (directory_structure b) ->
     _generate_summary a = _generate_summary b)
  /\ (forall a,
        frameworks (tech_stack a) = [] ->
        databases (tech_stack a) = [] ->
        entry_points a = [] ->
        directory_structure a = ∅ ->
        _generate_summary a
        = "Python project with " +:+ pretty (total_files a) +:+ " files ("
          +:+ format_thousands (total_lines a) +:+ " lines of code).").
Proof.
  split.
  - intros a b Hf Hl Hfw Hdb Hep Hds. unfold _generate_summary.
    rewrite Hf, Hl, Hfw, Hdb, Hds.
    destruct (entry_points a) as [|e l], (entry_points b) as [|e' l'];
      try discriminate Hep; [reflexivity|].
    now rewrite Hep.
  - intros a Hfw Hdb Hep Hds. unfold _generate_summary.
    rewrite Hfw, Hdb, Hep, Hds, map_size_empty. simpl.
    now rewrite !str_append_assoc.
Qed.

Lemma summary_depends_on_counts_witness :
  let a := build_analysis (example_env docker_fs) ["srv"] None in
  let b := build_analysis (example_env docker_fs) ["srv"] (Some "p-1") in
  _generate_summary a = _generate_summary b
  /\ (let c := build_analysis (example_env vendored_fs) ["proj"; "README"] None
      in _generate_summary c
         = "Python project with " +:+ pretty (total_files c) +:+ " files ("
           +:+ format_thousands (total_lines c) +:+ " lines of code).").
Proof.
  intros a b. split.
  - apply (proj1 summary_depends_on_counts a b); reflexivity.
  - intros c. apply (proj2 summary_depends_on_counts c); reflexivity.
Defined.

(** * Further properties of the routes and the tools *)

(** X9. A path that exists but is a file is rejected like a missing one:
    [ValueError] with the message "Path is not a directory: ..." (also
    inside Docker), no query to the store, 400 from the route, and from a
    delivered tool call the dict with [success] false, the message as
    [error], and a [hint]. *)
Theorem file_path_is_rejected env store client p project content :
  fs_get (fs_root env) (resolve env p) = Some (File content) ->
  let msg := "Path is not a directory: " +:+ p in
  analyze_codebase env store p project = (Raise (ValueError msg), [])
  /\ Api.analyze_codebase env store p project = (http_exception 400 msg, [])
  /\ (transport client = Delivered ->
      exists fields hint,
        Tools.codebase_analyze client env store p project
        = (DumpsDict fields, [])
        /\ dict_get "success" fields = Some (JBool false)
        /\ dict_get "error" fields = Some (JStr msg)
        /\ dict_get "hint" fields = Some (JStr hint)).
Proof.
  intros Hfile msg.
  assert (Hsvc : analyze_codebase env store p project
                 = (Raise (ValueError msg), [])).
  { unfold analyze_codebase, stat_exists, path_is_dir. now rewrite Hfile. }
  assert (Hapi : Api.analyze_codebase env store p project
                 = (http_exception 400 msg, [])).
  { unfold Api.analyze_codebase. now rewrite Hsvc. }
  split; [assumption|]. split; [assumption|].
  intros Hnet. unfold Tools.codebase_analyze. rewrite Hnet, Hapi. simpl.
  eexists. eexists. repeat split.
Qed.

Lemma file_path_is_rejected_witness :
  let env := example_env cached_fs in
  let msg := "Path is not a directory: /proj/README" in
  analyze_codebase env silent_store "/proj/README" None
  = (Raise (ValueError msg), [])
  /\ Api.analyze_codebase env silent_store "/proj/README" None
     = (http_exception 400 msg, [])
  /\ (transport example_client = Delivered ->
      exists fields hint,
        Tools.codebase_analyze example_client env silent_store
          "/proj/README" None
        = (DumpsDict fields, [])
        /\ dict_get "success" fields = Some (JBool false)
        /\ dict_get "error" fields = Some (JStr msg)
        /\ dict_get "hint" fields = Some (JStr hint)).
Proof.
  intros env.
  apply (file_path_is_rejected env silent_store example_client
           "/proj/README" None (Some (text_of "read me"))).
  reflexivity.
Defined.



(** X11. The project route sends one query to the store, whether or not
    the entity tag matches. With the rows the store answers (none, for an
    unknown project) it builds the body with [success] true and [count] the
    number of rows; it answers 304 with no body and no tag when
    [check_etag] accepts the request's tag, and otherwise 200 with the body
    and its tag. An unknown project is a success with count 0, not a 404. *)
Theorem project_analyses_route etags store project inm rows :
  select_project_execute store project = StoreData rows ->
  let reply := AnalysesResponse true rows (length rows) in
  let tag := generate_etag etags reply in
  snd (Api.get_project_analyses etags store project inm)
  = [SelectProject project]
  /\ (check_etag etags inm tag = true ->
      fst (Api.get_project_analyses etags store project inm)
      = {| status_code := 304; etag := None; body := NoBody |})
  /\ (check_etag etags inm tag = false ->
      fst (Api.get_project_analyses etags store project inm)
      = {| status_code := 200; etag := Some tag; body := reply |}).
Proof.
  intros Hrows reply tag.
  unfold Api.get_project_analyses, get_project_analyses. rewrite Hrows.
  fold reply. fold tag.
  destruct (check_etag etags inm tag); repeat split; intros; congruence.
Qed.

Lemma project_analyses_route_witness :
  let reply := AnalysesResponse true [] 0 in
  snd (Api.get_project_analyses example_etags silent_store "p-1" None)
  = [SelectProject "p-1"]
  /\ fst (Api.get_project_analyses example_etags silent_store "p-1"
            (Some "etag-1"))
     = {| status_code := 304; etag := None; body := NoBody |}
  /\ fst (Api.get_project_analyses example_etags silent_store "p-1" None)
     = {| status_code := 200; etag := Some "etag-1"; body := reply |}.
Proof.
  intros reply.
  destruct (project_analyses_route example_etags silent_store "p-1" None []
              eq_refl) as [Hcalls [_ Hfresh]].
  destruct (project_analyses_route example_etags silent_store "p-1"
              (Some "etag-1") [] eq_refl) as [_ [Hsame _]].
  split; [exact Hcalls|]. split.
  - apply Hsame. reflexivity.
  - apply Hfresh. reflexivity.
Defined.

(** X12. The latest-analysis route sends one query and never answers 500:
    it answers 404 exactly when the store answers no row or raises, and
    otherwise 304 or 200 with the first row, by the entity tag. *)
Theorem latest_analysis_route etags store path inm :
  let response := fst (Api.get_latest_analysis etags store path inm) in
  snd (Api.get_latest_analysis etags store path inm) = [SelectLatest path]
  /\ status_code response <> 500
  /\ (status_code response = 404
      <-> select_latest_execute store path = StoreData []
          \/ exists msg, select_latest_execute store path = StoreRaises msg)
  /\ (forall row rows,
        select_latest_execute store path = StoreData (row :: rows) ->
        let reply := AnalysisResponse true row "Latest analysis retrieved" in
        response
        = if check_etag etags inm (generate_etag etags reply)
          then {| status_code := 304; etag := None; body := NoBody |}
          else {| status_code := 200;
                  etag := Some (generate_etag etags reply);
                  body := reply |}).
Proof.
  intros response. subst response.
  unfold Api.get_latest_analysis, get_latest_analysis.
  destruct (select_latest_execute store path) as [msg|[|row rows]] eqn:Hq.
  - cbn. split; [reflexivity|]. split; [discriminate|]. split.
    + split; [intros _; right; now exists msg|reflexivity].
    + intros row rows H. discriminate.
  - cbn. split; [reflexivity|]. split; [discriminate|]. split.
    + split; [intros _; now left|reflexivity].
    + intros row rows H. discriminate.
  - cbn.
    set (reply := AnalysisResponse true row "Latest analysis retrieved").
    destruct (check_etag etags inm (generate_etag etags reply)) eqn:E; cbn.
    + split; [reflexivity|]. split; [discriminate|]. split.
      * split; [discriminate|]. intros [H|[msg H]]; discriminate.
      * intros row' rows' Heq. injection Heq as <- <-. fold reply.
        now rewrite E.
    + split; [reflexivity|]. split; [discriminate|]. split.
      * split; [discriminate|]. intros [H|[msg H]]; discriminate.
      * intros row' rows' Heq. injection Heq as <- <-. fold reply.
        now rewrite E.
Qed.

Lemma latest_analysis_route_witness :
  let row := {| row_id := Some "row-1";
                row_analysis :=
                  build_analysis (example_env docker_fs) ["srv"] None |} in
  let reply := AnalysisResponse true row "Latest analysis retrieved" in
  fst (Api.get_latest_analysis example_etags (rows_store [row]) "/srv" None)
  = {| status_code := 200; etag := Some "etag-1"; body := reply |}
  /\ (status_code (fst (Api.get_latest_analysis example_etags
                          (broken_store "down") "/srv" None)) = 404
      <-> select_latest_execute (broken_store "down") "/srv" = StoreData []
          \/ exists msg,
               select_latest_execute (broken_store "down") "/srv"
               = StoreRaises msg).
Proof.
  intros row reply. split.
  - destruct (latest_analysis_route example_etags (rows_store [row]) "/srv"
                None) as [_ [_ [_ Hrow]]].
    apply (Hrow row []). reflexivity.
  - apply (latest_analysis_route example_etags (broken_store "down") "/srv"
             None).
Defined.

(** X13. Only [codebase_analyze] has an answer of its own for a timeout:
    the dict with [success] false, a timeout [error] and the [hint] to
    analyse a subdirectory. The two other tools hand a timeout to
    [format_error] like any other exception. *)
Theorem tool_timeouts client etags env store p project msg :
  transport client = TimedOut msg ->
  (exists fields,
     Tools.codebase_analyze client env store p project = (DumpsDict fields, [])
     /\ dict_get "success" fields = Some (JBool false)
     /\ dict_get "error" fields
        = Some (JStr "Analysis timeout - codebase may be too large or complex")
     /\ dict_get "hint" fields
        = Some (JStr "Try analyzing a subdirectory instead of the entire project"))
  /\ Tools.codebase_get_project_analyses client etags store p
     = (Formatted (format_error client "codebase_get_project_analyses" msg), [])
  /\ Tools.codebase_get_latest client etags store p
     = (Formatted (format_error client "codebase_get_latest" msg), []).
Proof.
  intros Hnet.
  unfold Tools.codebase_analyze, Tools.codebase_get_project_analyses,
    Tools.codebase_get_latest.
  rewrite Hnet. split; [|split; reflexivity].
  eexists. repeat split.
Qed.

Lemma tool_timeouts_witness :
  (exists fields,
     Tools.codebase_analyze timeout_client (example_env scenario_fs)
       silent_store "/home/proj" None = (DumpsDict fields, [])
     /\ dict_get "success" fields = Some (JBool false)
     /\ dict_get "error" fields
        = Some (JStr "Analysis timeout - codebase may be too large or complex")
     /\ dict_get "hint" fields
        = Some (JStr "Try analyzing a subdirectory instead of the entire project"))
  /\ Tools.codebase_get_project_analyses timeout_client example_etags
       silent_store "/home/proj"
     = (Formatted (format_error timeout_client
                     "codebase_get_project_analyses" "timed out"), [])
  /\ Tools.codebase_get_latest timeout_client example_etags silent_store
       "/home/proj"
     = (Formatted (format_error timeout_client "codebase_get_latest"
                     "timed out"), []).
Proof.
  apply (tool_timeouts timeout_client example_etags (example_env scenario_fs)
           silent_store "/home/proj" None "timed out").
  reflexivity.
Defined.



(** X15. A delivered [codebase_get_latest] returns the not-found dict, with
    the hint to run [codebase_analyze], when the store answers no row (or
    raises); and the route's body with the first row when there is one and
    the entity tag helper reports no match for a request without tag. *)
Theorem tool_get_latest client etags store path :
  transport client = Delivered ->
  (select_latest_execute store path = StoreData []
   \/ (exists msg, select_latest_execute store path = StoreRaises msg) ->
   exists fields,
     Tools.codebase_get_latest client etags store path
     = (DumpsDict fields, [SelectLatest path])
     /\ dict_get "success" fields = Some (JBool false)
     /\ dict_get "error" fields
        = Some (JStr "No analysis found for this codebase path")
     /\ dict_get "hint" fields
        = Some (JStr "Use codebase_analyze() to create a new analysis"))
  /\ (forall row rows,
        select_latest_execute store path = StoreData (row :: rows) ->
        let reply := AnalysisResponse true row "Latest analysis retrieved" in
        check_etag etags None (generate_etag etags reply) = false ->
        Tools.codebase_get_latest client etags store path
        = (DumpsBody reply, [SelectLatest path])).
Proof.
  intros Hnet. unfold Tools.codebase_get_latest. rewrite Hnet. split.
  - intros Hnone.
    assert (Hapi : Api.get_latest_analysis etags store path None
                   = (http_exception 404
                        ("No analysis found for path: " +:+ path),
                      [SelectLatest path])).
    { unfold Api.get_latest_analysis, get_latest_analysis.
      destruct Hnone as [-> |[msg ->]]; reflexivity. }
    rewrite Hapi. eexists. repeat split.
  - intros row rows Hrow Hfresh.
    unfold Api.get_latest_analysis, get_latest_analysis. rewrite Hrow.
    cbn iota beta. now rewrite Hfresh.
Qed.

Lemma tool_get_latest_witness :
  let row := {| row_id := Some "row-1";
                row_analysis :=
                  build_analysis (example_env docker_fs) ["srv"] None |} in
  (exists fields,
     Tools.codebase_get_latest example_client example_etags silent_store "/srv"
     = (DumpsDict fields, [SelectLatest "/srv"])
     /\ dict_get "success" fields = Some (JBool false)
     /\ dict_get "error" fields
        = Some (JStr "No analysis found for this codebase path")
     /\ dict_get "hint" fields
        = Some (JStr "Use codebase_analyze() to create a new analysis"))
  /\ Tools.codebase_get_latest example_client example_etags (rows_store [row])
       "/srv"
     = (DumpsBody (AnalysisResponse true row "Latest analysis retrieved"),
        [SelectLatest "/srv"]).
Proof.
  intros row. split.
  - apply (proj1 (tool_get_latest example_client example_etags silent_store
                    "/srv" eq_refl)).
    now left.
  - apply (proj2 (tool_get_latest example_client example_etags
                    (rows_store [row]) "/srv" eq_refl) row []); reflexivity.
Defined.

(** * Further properties of counting and scanning *)





Lemma relative_to_Some f root rel :
  relative_to f root = Some rel <-> f = root ++ rel.
Proof.
  split.
  - revert f. induction root as [|r root IH]; intros f H.
    + destruct f; simpl in H; now injection H as <-.
    + destruct f as [|s f]; simpl in H; [discriminate|].
      destruct (String.eqb r s) eqn:E; [|discriminate].
      apply String.eqb_eq in E. subst s. simpl. f_equal. now apply IH.
  - intros ->. apply relative_to_self_app.
Qed.

(** X17. For any list of files, also one not collected below the root, the
    entry points are those of the files that can be read, hold the main
    guard and lie at or below the root; a file elsewhere is skipped, and so
    is a file that cannot be read. *)
Theorem entry_points_of_any_files env files root e :
  In e (_find_entry_points env files root)
  <-> exists f rel,
        In f files /\ guarded env f = true /\ f = root ++ rel
        /\ e = entry_for rel.
Proof.
  rewrite find_entry_points_map, in_map_iff. split.
  - intros [rel [<- Hrel]]. apply list_elem_of_In in Hrel.
    apply list_elem_of_omap in Hrel as [f [Hf Hsome]].
    apply list_elem_of_In in Hf.
    destruct (guarded env f) eqn:Hg; [|discriminate].
    apply relative_to_Some in Hsome. now exists f, rel.
  - intros [f [rel [Hf [Hg [Hrel ->]]]]]. exists rel. split; [reflexivity|].
    apply list_elem_of_In, list_elem_of_omap. exists f.
    split; [now apply list_elem_of_In|].
    rewrite Hg. now apply relative_to_Some.
Qed.

Lemma count_lines_as_sum env files :
  _count_lines env files
  = list_sum (map (fun f => match read_text env f with
                            | Some content => line_count content
                            | None => 0
                            end) files).
Proof.
  induction files as [|f files IH]; [reflexivity|].
  change (f :: files) with ([f] ++ files) at 1.
  rewrite count_lines_app, IH. cbn [map list_sum]. f_equal.
Qed.

(** X18. The totals do not depend on the order in which the files were
    found: two lists that are permutations of each other have the same
    number of files and the same line count. *)
Theorem totals_ignore_order env files files' :
  Permutation files files' ->
  length files = length files'
  /\ _count_lines env files = _count_lines env files'.
Proof.
  intros Hperm. split; [now apply Permutation_length|].
  rewrite !count_lines_as_sum.
  induction Hperm as [|f l l' _ IH|f g l|l l' l'' _ IH1 _ IH2];
    simpl in *; lia.
Qed.

Lemma totals_ignore_order_witness :
  let env := example_env scenario_fs in
  length [["home"; "proj"; "app.py"]; ["home"; "proj"; "lib"; "utils.py"]]
  = length [["home"; "proj"; "lib"; "utils.py"]; ["home"; "proj"; "app.py"]]
  /\ _count_lines env
       [["home"; "proj"; "app.py"]; ["home"; "proj"; "lib"; "utils.py"]]
     = _count_lines env
         [["home"; "proj"; "lib"; "utils.py"]; ["home"; "proj"; "app.py"]].
Proof.
  intros env. apply (totals_ignore_order env). apply perm_swap.
Defined.

(** ** The statements above at concrete inputs *)

Lemma entry_points_follow_collection_witness :
  let a := build_analysis (example_env scenario_fs) ["home"; "proj"] None in
  let gone := build_analysis (example_env scenario_fs) ["home"; "gone"] None in
  length (entry_points a) <= total_files a
  /\ ep_type {| ep_path := "app.py"; ep_type := "cli_entry";
                ep_description := "Entry point in app.py" |} = "cli_entry"
  /\ total_files gone = 0 /\ entry_points gone = [].
Proof.
  intros a gone.
  destruct (entry_points_follow_collection (example_env scenario_fs)
              ["home"; "proj"] None) as [_ [Hle [Htype _]]].
  destruct (entry_points_follow_collection (example_env scenario_fs)
              ["home"; "gone"] None) as [_ [_ [_ Hgone]]].
  split; [exact Hle|]. split; [apply Htype; now left|].
  apply Hgone. reflexivity.
Defined.

Lemma tech_stack_detection_witness :
  let ts := _detect_tech_stack (example_env docker_fs) ["srv"] in
  In "FastAPI" (frameworks ts) /\ In "PostgreSQL" (databases ts)
  /\ In "pytest" (tools ts) /\ In "Docker" (tools ts)
  /\ ~ In "Poetry" (tools ts).
Proof.
  intros ts.
  destruct (tech_stack_detection (example_env docker_fs) ["srv"])
    as [Hfast [_ [_ [Hpg [_ [_ [Hpytest [Hpoetry [_ Hdocker]]]]]]]]].
  repeat split.
  - apply Hfast. reflexivity.
  - apply Hpg. right. reflexivity.
  - apply Hpytest. reflexivity.
  - apply Hdocker. left. reflexivity.
  - intros Hin. apply Hpoetry in Hin. discriminate Hin.
Defined.

Lemma entry_points_of_any_files_witness :
  let env := example_env scenario_fs in
  In (entry_for ["app.py"])
     (_find_entry_points env
        [["home"; "proj"; "app.py"]; ["build"; "proj"; "app.py"]]
        ["home"; "proj"])
  /\ ~ In (entry_for ["lib"; "utils.py"])
         (_find_entry_points env [["home"; "proj"; "lib"; "utils.py"]]
            ["home"; "proj"]).
Proof.
  intros env. split.
  - apply (entry_points_of_any_files env). exists ["home"; "proj"; "app.py"],
      ["app.py"]. repeat split. now left.
  - intros Hin. apply (entry_points_of_any_files env) in Hin
      as [f [rel [[<-|[]] [Hg _]]]]. discriminate Hg.
Defined.
